(** * dl4m.py: bibliography reports and README rewriting

    A shallow embedding of [dl4m.py] and the properties of its report
    pipeline.  Python text is modelled as a [string] of UTF-8 bytes: every
    literal the script searches for or compares with is ASCII, so substring
    tests, the [line[:2]] / [line[2]] tests and the lexicographic order agree
    with Python's code-point semantics.  A bibliography entry is the [dict]
    that bibtexparser hands out, a finite map from field names to values.
    Limits of memory and time are not part of the model. *)

From Stdlib Require Import String Ascii ZArith List Lia.
From stdpp Require Import base gmap strings list sorting pretty.

Open Scope stdpp_scope.

(** ** Python values and builtins *)

Module Py.

Definition LF : ascii := "010"%char.
Definition CR : ascii := "013"%char.
Definition nl : string := String LF "".

(** [needle in hay] on [str]. *)
Fixpoint str_in (needle hay : string) : bool :=
  String.prefix needle hay ||
  match hay with
  | "" => false
  | String _ rest => str_in needle rest
  end.

(** [s[:n]] *)
Definition slice_to (n : nat) (s : string) : string := String.substring 0 n s.

(** [sep.join(xs)] *)
Fixpoint str_join (sep : string) (xs : list string) : string :=
  match xs with
  | [] => ""
  | [x] => x
  | x :: rest => x +:+ sep +:+ str_join sep rest
  end.

(** Concatenation of successive writes / [+=]. *)
Definition flat (xs : list string) : string := foldr String.app "" xs.

(** [s.split(sep)] for a non-empty [sep] (both call sites pass a literal):
    the pieces between the leftmost, non-overlapping occurrences of [sep].
    [skip] counts the characters of a separator that was just recognised
    and still have to be passed over. *)
Fixpoint split_go (sep : string) (skip : nat) (s : string) : list string :=
  match s with
  | "" => [""]
  | String c rest =>
      match skip with
      | S k => split_go sep k rest
      | O =>
          if String.prefix sep s
          then "" :: split_go sep (String.length sep - 1) rest
          else match split_go sep 0 rest with
               | [] => [String c ""]
               | piece :: pieces => String c piece :: pieces
               end
      end
  end.
Definition str_split (sep s : string) : list string := split_go sep 0 s.

(** [str(n)] for a non-negative [int]. *)
Definition str_of_nat (n : nat) : string := pretty n.

(** [sorted(set(xs))]: the set forgets order and multiplicity, [sorted]
    orders its elements by [<] on [str]. *)
Definition set (xs : list string) : gset string := list_to_set xs.
Definition sorted (s : gset string) : list string :=
  merge_sort String.le (elements s).

(** What a file opened with [open(path, "r")] hands over (text mode with the
    default [newline=None], universal newlines): a carriage return followed
    by a line feed, and a carriage return on its own, are read as one line
    feed. *)
Fixpoint universal_newlines (s : string) : string :=
  match s with
  | "" => ""
  | String c rest =>
      if Ascii.eqb c CR then
        match rest with
        | String c' rest' =>
            if Ascii.eqb c' LF then String LF (universal_newlines rest')
            else String LF (universal_newlines rest)
        | "" => String LF ""
        end
      else String c (universal_newlines rest)
  end.

(** The lines of a text: each keeps its terminating line feed; only the last
    line may lack one. *)
Fixpoint split_lines (s : string) : list string :=
  match s with
  | "" => []
  | String c rest =>
      if Ascii.eqb c LF then String c "" :: split_lines rest
      else match split_lines rest with
           | [] => [String c ""]
           | l :: ls => String c l :: ls
           end
  end.

(** [for line in filep] over the file whose content is [doc]: the lines of
    the text after newline translation. *)
Definition file_lines (doc : string) : list string :=
  split_lines (universal_newlines doc).

(** Exceptions the script can raise. *)
Inductive exn : Type :=
| AssertionError (msg : string)
| KeyError (key : string)
| IndexError
| ValueError
| FileNotFoundError (path : string).

Inductive result (A : Type) : Type :=
| Ok (a : A)
| Raise (e : exn).
Arguments Ok {A} a.
Arguments Raise {A} e.

#[global] Instance result_ret : MRet result := @Ok.
#[global] Instance result_bind : MBind result := λ A B f r,
  match r with
  | Ok a => f a
  | Raise e => Raise e
  end.

(** [for x in xs: st = body(st, x)], stopping at the first exception. *)
Fixpoint for_each {A S : Type} (body : S → A → result S) (xs : list A) (st : S)
  : result S :=
  match xs with
  | [] => Ok st
  | x :: rest => st' ← body st x; for_each body rest st'
  end.

End Py.
Import Py.

(** ** The outside world: files and standard output *)

(** The folder fig/ in which the figure is saved: missing, or there with,
    for each figure saved in it, the bin edges and the counts that were
    drawn.  [∅] is the missing folder. *)
Inductive fig_folder : Type :=
| NoFolder
| Folder (figs : gmap string (list Z * list nat)).

#[global] Instance fig_folder_empty : Empty fig_folder := NoFolder.

(** Files hold their content as written on a system whose line separator is
    the line feed (writing in text mode leaves the text as it is there). *)
Record world : Type := World {
  files : gmap string string;
  stdout : list string;
  figures : fig_folder
}.

(** A computation runs in a world, leaves a world behind and either returns
    or raises; what was written before an exception stays written. *)
Definition M (A : Type) : Type := world → result A * world.

#[global] Instance M_ret : MRet M := λ A a w, (Ok a, w).
#[global] Instance M_bind : MBind M := λ A B f m w,
  match m w with
  | (Ok a, w') => f a w'
  | (Raise e, w') => (Raise e, w')
  end.

Definition lift {A} (r : result A) : M A := λ w, (r, w).

(** [print(a, b, ...)]: the arguments joined by single spaces. *)
Definition print (args : list string) : M () := λ w,
  (Ok (), World (files w) (stdout w ++ [str_join " " args]) (figures w)).

(** [with open(path, "w") as f: f.write(...)...] *)
Definition write_file (path content : string) : M () := λ w,
  (Ok (), World (<[path := content]> (files w)) (stdout w) (figures w)).

(** [with open(path, "r") as f: f.read()] *)
Definition read_file (path : string) : M string := λ w,
  match files w !! path with
  | Some content => (Ok content, w)
  | None => (Raise (FileNotFoundError path), w)
  end.

(** A bibliography entry as bibtexparser returns it: a [dict] from field
    names to values. *)
Abbreviation dict := (gmap string string).

(** ** [validate_field] *)

Definition fields : list string :=
  ["task"; "dataset"; "architecture"; "author"; "dataaugmentation";
   "link"; "title"; "year"; "journal"; "ENTRYTYPE"].

Definition validate_field (field_name : string) : result () :=
  let error_str := "Invalid field provided: " +:+ field_name +:+ ". " in
  let error_str := error_str +:+ "Valid fields: " +:+
                   ("[" +:+ str_join ", " fields +:+ "]") in
  if bool_decide (field_name ∈ fields) then Ok () else Raise (AssertionError error_str).

(** ** [generate_list_articles] *)

(** One turn of [for entry in bib], [articles] being the accumulator. *)
Definition list_articles_body (articles : string) (entry : dict) : string :=
  match entry !! "title" with
  | Some title =>
      let articles :=
        match entry !! "link" with
        | Some link => articles +:+ ("| [" +:+ title +:+ "](" +:+ link +:+ ") | ")
        | None => articles +:+ ("| " +:+ title +:+ " | ")
        end in
      let articles :=
        match entry !! "code" with
        | Some code =>
            if str_in "No" code then articles +:+ "No "
            else
              let articles :=
                if str_in "github" code then articles +:+ "[GitHub"
                else articles +:+ "[Website" in
              articles +:+ ("](" +:+ code +:+ ") ")
        | None => articles +:+ "No "
        end in
      articles +:+ ("|" +:+ nl)
  | None => articles
  end.

Definition generate_list_articles (bib : list dict) : string :=
  fold_left list_articles_body bib "".

(** ** The README rewrite of [generate_summary_table] *)

(** The values computed at the top of [generate_summary_table]. *)
Record fragments : Type := Fragments {
  nb_articles : string;
  nb_authors : string;
  nb_tasks : string;
  nb_datasets : string;
  nb_archi : string;
  articles : string
}.

(** ["| " in line[:2] and line[2] != " "]; [line[2]] raises on a line of two
    characters. *)
Definition table_anchor (line : string) : result bool :=
  if str_in "| " (slice_to 2 line) then
    match String.get 2 line with
    | Some c => Ok (negb (Ascii.eqb c " "))
    | None => Raise IndexError
    end
  else Ok false.

(** One turn of [for line in filep]; the state is [(readme, pasted_articles)]. *)
Definition readme_body (fr : fragments) (st : string * bool) (line : string)
  : result (string * bool) :=
  let '(readme, pasted_articles) := st in
  table_anchor line ≫= λ is_table : bool,
  if is_table then
    if negb pasted_articles then Ok (readme +:+ articles fr, true)
    else Ok (readme, pasted_articles)
  else if str_in "papers referenced" line then
    let readme := readme +:+ ("- " +:+ nb_articles fr +:+ " papers referenced. ") in
    Ok (readme +:+ ("See the details in [dl4m.bib](dl4m.bib)." +:+ nl), pasted_articles)
  else if str_in "unique researchers" line then
    let readme := readme +:+ ("- " +:+ nb_authors fr +:+ " unique researchers. ") in
    Ok (readme +:+ ("See the list of [authors](authors.md)." +:+ nl), pasted_articles)
  else if str_in "tasks investigated" line then
    let readme := readme +:+ ("- " +:+ nb_tasks fr +:+ " tasks investigated. ") in
    Ok (readme +:+ ("See the list of [tasks](tasks.md)." +:+ nl), pasted_articles)
  else if str_in "datasets used" line then
    let readme := readme +:+ ("- " +:+ nb_datasets fr +:+ " datasets used. ") in
    Ok (readme +:+ ("See the list of [datasets](datasets.md)." +:+ nl), pasted_articles)
  else if str_in "architecture used" line then
    let readme := readme +:+ ("- " +:+ nb_archi fr +:+ " architectures used. ") in
    Ok (readme +:+ ("See the list of [architectures](architectures.md)." +:+ nl),
        pasted_articles)
  else Ok (readme +:+ line, pasted_articles).

(** The loop over the lines of the old README, from [readme = ""] and
    [pasted_articles = False], and the text written back. *)
Definition rewrite_lines (fr : fragments) (lines : list string) : result string :=
  '(readme, _) ← for_each (readme_body fr) lines ("", false); Ok readme.

Definition rewrite_readme (fr : fragments) (doc : string) : result string :=
  rewrite_lines fr (file_lines doc).

(** ** [get_nb_articles], [get_authors], [get_field] *)

Definition get_nb_articles (bib : list dict) : M nat :=
  print ["There are"; str_of_nat (length bib); "articles referenced."];;
  mret (length bib).

(** One turn of [for entry in bib] in [get_authors]: [entry['author']] raises
    when the key is missing. *)
Definition get_authors_body (authors : list string) (entry : dict)
  : result (list string) :=
  match entry !! "author" with
  | Some value => Ok (authors ++ str_split " and " value)
  | None => Raise (KeyError "author")
  end.

Definition get_authors (bib : list dict) : M nat :=
  authors ← lift (for_each get_authors_body bib []);
  let authors := sorted (set authors) in
  let nb_authors := length authors in
  print ["There are"; str_of_nat nb_authors; "researchers working on DL4M."];;
  let authors_fn := "authors.md" in
  write_file authors_fn
    ("# List of authors" +:+ nl +:+ nl +:+
     flat ((λ author, "- " +:+ author +:+ nl) <$> authors));;
  print ["List of authors written in"; authors_fn];;
  mret nb_authors.

(** One turn of [for entry in bib] in [get_field]; the state is
    [(fields, nb_article_missing)]. *)
Definition get_field_body (field_name : string) (st : list string * nat)
    (entry : dict) : list string * nat :=
  let '(fields, nb_article_missing) := st in
  match entry !! field_name with
  | Some value => (fields ++ str_split " & " value, nb_article_missing)
  | None => (fields, S nb_article_missing)
  end.

Definition get_field (bib : list dict) (field_name : string) : M nat :=
  lift (validate_field field_name);;
  let '(fields, nb_article_missing) :=
    fold_left (get_field_body field_name) bib ([], 0%nat) in
  print [str_of_nat nb_article_missing +:+ " entries are missing the " +:+
         field_name +:+ " field."];;
  let nb_fields := size (set fields) in
  print [str_of_nat nb_fields +:+ " unique " +:+ field_name +:+ "."];;
  let field_fn := field_name +:+ "s.md" in
  write_file field_fn
    ("# List of " +:+ field_name +:+ "s" +:+ nl +:+ nl +:+
     "Please refer to the list of useful acronyms used in deep " +:+
     "learning and music: [acronyms.md](acronyms.md)." +:+ nl +:+ nl +:+
     flat ((λ field, "- " +:+ field +:+ nl) <$> sorted (set fields)));;
  print ["List of " +:+ field_name +:+ "s written in"; field_fn];;
  mret nb_fields.

(** ** [generate_summary_table] *)

Definition generate_summary_table (bib : list dict) : M () :=
  n ← get_nb_articles bib; let nb_articles := str_of_nat n in
  n ← get_authors bib; let nb_authors := str_of_nat n in
  n ← get_field bib "task"; let nb_tasks := str_of_nat n in
  n ← get_field bib "dataset"; let nb_datasets := str_of_nat n in
  n ← get_field bib "architecture"; let nb_archi := str_of_nat n in
  let articles := generate_list_articles bib in
  let readme_fn := "README.md" in
  doc ← read_file readme_fn;
  readme ← lift (rewrite_readme
                   (Fragments nb_articles nb_authors nb_tasks nb_datasets
                              nb_archi articles) doc);
  write_file readme_fn readme;;
  print ["New ReadMe generated"].

(** ** [articles_per_year] *)

Module Num.

(** [int(s)] on ASCII text, as CPython 3.11 and later read it: blanks
    (space, tab, line feed, vertical tab, form feed, carriage return) around,
    an optional sign, decimal digits with single underscores between them,
    at most 4300 digits.  [None] is [ValueError].  A text with a non-ASCII
    character gets [None] here, which does not describe Python: it also
    reads other scripts' digits and blanks. *)
Definition is_space (c : ascii) : bool := Ascii.is_space c.

Fixpoint lstrip (s : string) : string :=
  match s with
  | String c rest => if is_space c then lstrip rest else s
  | "" => ""
  end.

Definition strip (s : string) : string :=
  String.rev (lstrip (String.rev (lstrip s))).

Fixpoint digits (acc : Z) (after_digit : bool) (s : string) : option Z :=
  match s with
  | "" => if after_digit then Some acc else None
  | String c rest =>
      match Ascii.is_nat c with
      | Some d => digits (10 * acc + Z.of_nat d)%Z true rest
      | None =>
          if Ascii.eqb c "_" && after_digit then digits acc false rest
          else None
      end
  end.

Fixpoint nb_digits (s : string) : nat :=
  match s with
  | "" => 0
  | String c rest =>
      match Ascii.is_nat c with
      | Some _ => S (nb_digits rest)
      | None => nb_digits rest
      end
  end.

(** [sys.get_int_max_str_digits()], by default *)
Definition max_str_digits : nat := 4300.

Definition int_of_str (s : string) : option Z :=
  let '(negative, body) :=
    match strip s with
    | String "+" rest => (false, rest)
    | String "-" rest => (true, rest)
    | body => (false, body)
    end in
  if (max_str_digits <? nb_digits body)%nat then None
  else n ← digits 0 false body; Some (if negative then (- n)%Z else n).

(** [min(xs)] and [max(xs)] raise on an empty list. *)
Definition py_min (xs : list Z) : result Z :=
  match xs with
  | [] => Raise ValueError
  | x :: rest => Ok (foldl Z.min x rest)
  end.

Definition py_max (xs : list Z) : result Z :=
  match xs with
  | [] => Raise ValueError
  | x :: rest => Ok (foldl Z.max x rest)
  end.

(** [np.arange(start, stop, 1.0)] on integral bounds: [start], [start + 1],
    ... below [stop].  numpy computes the edges in float64; they are these
    integers as long as the bounds lie between [-2^53] and [2^53], the range
    in which every integer is a float64.  Outside that range this definition
    does not describe numpy, and nothing below is stated there. *)
Fixpoint arange_go (start : Z) (n : nat) : list Z :=
  match n with
  | O => []
  | S k => start :: arange_go (start + 1) k
  end.

Definition np_arange (start stop : Z) : list Z :=
  arange_go start (Z.to_nat (stop - start)).

(** The counts [plt.hist(xs, bins=edges)] computes (numpy's histogram):
    bin [i] is [edges[i] <= x < edges[i+1]], the last bin also takes its
    right edge. *)
Fixpoint np_histogram (xs : list Z) (edges : list Z) : list nat :=
  match edges with
  | lo :: ((hi :: rest) as tail) =>
      (match rest with
       | [] => length (filter (λ x, lo ≤ x ≤ hi)%Z xs)
       | _ => length (filter (λ x, lo ≤ x < hi)%Z xs)
       end) :: np_histogram xs tail
  | _ => []
  end.

End Num.
Import Num.

(** One turn of [for entry in bib] in [articles_per_year]. *)
Definition articles_per_year_body (years : list Z) (entry : dict)
  : result (list Z) :=
  match entry !! "year" with
  | None => Raise (KeyError "year")
  | Some value =>
      match int_of_str value with
      | Some year => Ok (years ++ [year])
      | None => Raise ValueError
      end
  end.

(** [plt.hist] followed by [plt.savefig]: the figure file stands for the
    edges and counts that were drawn; [savefig] raises when the folder of
    the figure does not exist. *)
Definition hist_savefig (fig_fn : string) (xs edges : list Z) : M () := λ w,
  match figures w with
  | Folder figs =>
      (Ok (), World (files w) (stdout w)
                    (Folder (<[fig_fn := (edges, np_histogram xs edges)]> figs)))
  | NoFolder => (Raise (FileNotFoundError fig_fn), w)
  end.

Definition articles_per_year (bib : list dict) : M () :=
  years ← lift (for_each articles_per_year_body bib []);
  lo ← lift (py_min years);
  hi ← lift (py_max years);
  let year_bins := np_arange lo (hi + 2) in
  let fig_fn := "fig/articles_per_year.png" in
  hist_savefig fig_fn years year_bins;;
  print ["Fig. with number of articles per year saved in"; fig_fn].

(** ** [write_bib], [read_bib], [load_bib], [main] *)

(** bibtexparser is a library outside this repository: its database type,
    its parser [bibtexparser.loads] and the output of a [BibTexWriter] with
    [indent = '  '] and [order_entries_by = ('noneyear', "author")] are
    parameters of the functions that use them.  [loads] stands for the
    parser applied to the content of the file as [read_bib] hands it over,
    the newline translation of text mode included. *)
Section bibtexparser.
Variable bib_database : Type.
Variable entries : bib_database → list dict.
Variable loads : string → result bib_database.
Variable writer_write : bib_database → string.

Definition write_bib (bib_database : bib_database) (filen : string) : M () :=
  write_file filen (writer_write bib_database).

Definition read_bib (filen : string) : M bib_database :=
  bibtex_str ← read_file filen;
  lift (loads bibtex_str).

Definition load_bib (filen : string) : M (list dict) :=
  bib ← read_bib filen;
  write_bib bib filen;;
  bib ← read_bib filen;
  mret (entries bib).

Definition main (filen : string) : M () :=
  bib ← load_bib filen;
  generate_summary_table bib;;
  articles_per_year bib.
End bibtexparser.

(** ** Definitions used to state the properties *)

(** The renderer as the specification words it: the code-availability cell,
    and the row of a record that has a title. *)
Definition code_cell_spec (code : option string) : string :=
  match code with
  | Some code =>
      if str_in "No" code then "No "
      else if str_in "github" code then "[GitHub](" +:+ code +:+ ") "
      else "[Website](" +:+ code +:+ ") "
  | None => "No "
  end.

Definition article_row_spec (entry : dict) : option string :=
  title ← entry !! "title";
  let title_cell :=
    match entry !! "link" with
    | Some link => "[" +:+ title +:+ "](" +:+ link +:+ ") | "
    | None => title +:+ " | "
    end in
  Some ("| " +:+ title_cell +:+ code_cell_spec (entry !! "code") +:+ "|" +:+ nl).

(** What a line that is not a table line contributes: one of the five count
    lines, or the line itself. *)
Definition count_or_copy (fr : fragments) (line : string) : string :=
  if str_in "papers referenced" line then
    "- " +:+ nb_articles fr +:+
    " papers referenced. See the details in [dl4m.bib](dl4m.bib)." +:+ nl
  else if str_in "unique researchers" line then
    "- " +:+ nb_authors fr +:+
    " unique researchers. See the list of [authors](authors.md)." +:+ nl
  else if str_in "tasks investigated" line then
    "- " +:+ nb_tasks fr +:+
    " tasks investigated. See the list of [tasks](tasks.md)." +:+ nl
  else if str_in "datasets used" line then
    "- " +:+ nb_datasets fr +:+
    " datasets used. See the list of [datasets](datasets.md)." +:+ nl
  else if str_in "architecture used" line then
    "- " +:+ nb_archi fr +:+
    " architectures used. See the list of [architectures](architectures.md)." +:+ nl
  else line.

(** The contribution of every line, given whether the table was pasted. *)
Fixpoint pieces (fr : fragments) (pasted : bool) (lines : list string)
  : list string :=
  match lines with
  | [] => []
  | l :: ls =>
      match table_anchor l with
      | Ok true => (if pasted then "" else articles fr) :: pieces fr true ls
      | _ => count_or_copy fr l :: pieces fr pasted ls
      end
  end.

Definition is_anchor (line : string) : bool :=
  match table_anchor line with Ok b => b | Raise _ => false end.

(** [s[k:]] *)
Fixpoint str_drop (k : nat) (s : string) : string :=
  match k, s with
  | O, _ => s
  | S k, String _ rest => str_drop k rest
  | S _, "" => ""
  end.

(** Every value found under [field] in [bib], split on [sep], in order. *)
Definition field_pieces (sep field : string) (bib : list dict) : list string :=
  bib ≫= λ e, default [] (str_split sep <$> e !! field).

(** The listing [sorted(set(fields))] that [get_field] and [get_authors]
    write, as a function of the bibliography. *)
Definition field_values (sep field : string) (bib : list dict) : list string :=
  sorted (set (field_pieces sep field bib)).

(** The order [<] on [str]. *)
Definition str_lt (a b : string) : Prop := String.ltb a b = true.

Definition is_digit (c : ascii) : Prop := is_Some (Ascii.is_nat c).

(** The fragments [generate_summary_table] computes from a bibliography in
    which every record has an author. *)
Definition fragments_of (bib : list dict) : fragments :=
  Fragments (str_of_nat (length bib))
            (str_of_nat (length (field_values " and " "author" bib)))
            (str_of_nat (length (field_values " & " "task" bib)))
            (str_of_nat (length (field_values " & " "dataset" bib)))
            (str_of_nat (length (field_values " & " "architecture" bib)))
            (generate_list_articles bib).

(** Runs the world-passing plumbing of a computation whose steps are known. *)
Ltac run_M :=
  unfold mbind, M_bind, mret, M_ret, print, write_file, lift;
  cbn [files stdout figures app].

(** The text [get_authors] writes to authors.md and [get_field] writes to
    [<field>s.md]. *)
Definition authors_md (bib : list dict) : string :=
  "# List of authors" +:+ nl +:+ nl +:+
  flat ((λ author, "- " +:+ author +:+ nl) <$> field_values " and " "author" bib).

Definition field_md (field_name : string) (bib : list dict) : string :=
  "# List of " +:+ field_name +:+ "s" +:+ nl +:+ nl +:+
  "Please refer to the list of useful acronyms used in deep " +:+
  "learning and music: [acronyms.md](acronyms.md)." +:+ nl +:+ nl +:+
  flat ((λ field, "- " +:+ field +:+ nl) <$> field_values " & " field_name bib).

(** The lines [get_field] prints. *)
Definition field_stdout (field_name : string) (bib : list dict) : list string :=
  [str_of_nat (length (filter (λ e : dict, e !! field_name = None) bib)) +:+
     " entries are missing the " +:+ field_name +:+ " field.";
   str_of_nat (length (field_values " & " field_name bib)) +:+
     " unique " +:+ field_name +:+ ".";
   str_join " " ["List of " +:+ field_name +:+ "s written in"; field_name +:+ "s.md"]].

(** What [generate_summary_table] has written and printed when it reaches
    the README: the four listings and twelve lines. *)
Definition write_listings (bib : list dict) (fs : gmap string string)
  : gmap string string :=
  <["architectures.md" := field_md "architecture" bib]>
    (<["datasets.md" := field_md "dataset" bib]>
       (<["tasks.md" := field_md "task" bib]>
          (<["authors.md" := authors_md bib]> fs))).

Definition listing_stdout (bib : list dict) : list string :=
  [str_join " " ["There are"; str_of_nat (length bib); "articles referenced."];
   str_join " " ["There are";
                 str_of_nat (length (field_values " and " "author" bib));
                 "researchers working on DL4M."];
   "List of authors written in authors.md"] ++
  field_stdout "task" bib ++ field_stdout "dataset" bib ++
  field_stdout "architecture" bib.


(** Text without a line feed, text without a carriage return, and the shape
    of what file iteration yields: lines with neither inside that end in
    their line feed, the last one possibly without. *)
Definition no_lf (x : string) : Prop :=
  Forall (λ c, c ≠ LF) (String.list_ascii_of_string x).

Definition no_cr (x : string) : Prop :=
  Forall (λ c, c ≠ CR) (String.list_ascii_of_string x).

Inductive Lines : list string → Prop :=
| Lines_nil : Lines []
| Lines_last x : no_lf x → no_cr x → x ≠ "" → Lines [x]
| Lines_cons x ls : no_lf x → no_cr x → Lines ls → Lines ((x +:+ nl) :: ls).

(** ** Facts about strings *)

Section strings.
Implicit Types s t u : string.

Lemma str_app_cons c s t : String c s +:+ t = String c (s +:+ t).
Proof. reflexivity. Qed.

Lemma str_app_nil_l s : "" +:+ s = s.
Proof. reflexivity. Qed.

Lemma str_app_nil_r s : s +:+ "" = s.
Proof. induction s as [|c s IH]; [done|]. by rewrite str_app_cons, IH. Qed.

Lemma str_app_assoc s t u : (s +:+ t) +:+ u = s +:+ (t +:+ u).
Proof. induction s as [|c s IH]; [done|]. by rewrite !str_app_cons, IH. Qed.

Lemma str_length_app s t :
  String.length (s +:+ t) = (String.length s + String.length t)%nat.
Proof. induction s as [|c s IH]; [done|]. rewrite str_app_cons. simpl. by rewrite IH. Qed.

Lemma prefix_nil s : String.prefix "" s = true.
Proof. by destruct s. Qed.

Lemma prefix_spec s t : String.prefix s t = true ↔ ∃ u, t = s +:+ u.
Proof.
  revert t. induction s as [|c s IH]; intros t.
  - rewrite prefix_nil. split; [eauto|done].
  - destruct t as [|d t]; simpl.
    + split; [done|]. by intros [u ?].
    + destruct (ascii_dec c d) as [->|Hne].
      * rewrite IH. split; intros [u Hu]; exists u.
        -- by rewrite str_app_cons, Hu.
        -- rewrite str_app_cons in Hu. by simplify_eq.
      * split; [done|]. intros [u Hu]. rewrite str_app_cons in Hu. by simplify_eq.
Qed.

Lemma prefix_app s t : String.prefix s (s +:+ t) = true.
Proof. apply prefix_spec. eauto. Qed.

Lemma str_in_spec s t : str_in s t = true ↔ ∃ u v, t = u +:+ s +:+ v.
Proof.
  induction t as [|c t IH]; cbn [str_in].
  - rewrite orb_false_r, prefix_spec. split.
    + intros [v Hv]. by exists "", v.
    + intros (u & v & Huv). destruct u; [by exists v|done].
  - rewrite orb_true_iff, prefix_spec, IH. split.
    + intros [[v Hv]|(u & v & Huv)].
      * by exists "", v.
      * exists (String c u), v. by rewrite str_app_cons, Huv.
    + intros (u & v & Huv). destruct u as [|d u].
      * left. by exists v.
      * right. rewrite str_app_cons in Huv. simplify_eq. eauto.
Qed.

Lemma str_in_app s u v : str_in s (u +:+ s +:+ v) = true.
Proof. apply str_in_spec. eauto. Qed.

(** A prefix made of characters other than the needle's first one cannot
    take part in a match. *)
Lemma str_in_skip c s u t :
  Forall (λ d, d ≠ c) (String.list_ascii_of_string u) →
  str_in (String c s) (u +:+ t) = str_in (String c s) t.
Proof.
  induction u as [|d u IH]; [done|].
  change (String.list_ascii_of_string (String d u))
    with (d :: String.list_ascii_of_string u).
  intros [Hd Hu]%Forall_cons. rewrite str_app_cons. cbn [str_in String.prefix].
  destruct (ascii_dec c d) as [->|_]; [done|]. by rewrite IH.
Qed.

Lemma flat_app (xs ys : list string) : flat (xs ++ ys) = flat xs +:+ flat ys.
Proof.
  induction xs as [|x xs IH]; [done|]. simpl.
  unfold flat in *. simpl. by rewrite IH, str_app_assoc.
Qed.
End strings.

(** ** Facts about [split], [sorted] and [set] *)

Section split.
Variable sep : string.
Hypothesis sep_nonempty : sep ≠ "".

Lemma str_drop_app s t : str_drop (String.length s) (s +:+ t) = t.
Proof. induction s as [|c s IH]; [done|]. by rewrite str_app_cons. Qed.

Lemma split_go_nonempty k s : split_go sep k s ≠ [].
Proof.
  revert k. induction s as [|c s IH]; intros k; [done|].
  cbn [split_go]. destruct k as [|k]; [|apply IH].
  destruct (String.prefix sep (String c s)); [done|].
  by destruct (split_go sep 0 s).
Qed.

Lemma str_join_head x xs : ∃ w, str_join sep (x :: xs) = x +:+ w.
Proof.
  destruct xs as [|y ys]; [exists ""; by rewrite str_app_nil_r|].
  by eexists.
Qed.

Lemma str_join_cons2 x y ys :
  str_join sep (x :: y :: ys) = x +:+ sep +:+ str_join sep (y :: ys).
Proof. reflexivity. Qed.

Lemma str_join_cons_char c x xs :
  str_join sep (String c x :: xs) = String c (str_join sep (x :: xs)).
Proof. by destruct xs. Qed.

Lemma split_go_join k s : str_join sep (split_go sep k s) = str_drop k s.
Proof.
  revert k. induction s as [|c s IH]; intros k; [by destruct k|].
  cbn [split_go]. destruct k as [|k]; [|apply IH].
  destruct (String.prefix sep (String c s)) eqn:Hp.
  - apply prefix_spec in Hp as [u Hu].
    assert (∃ sep', sep = String c sep' ∧ s = sep' +:+ u) as (sep' & Hsep & ->).
    { clear IH. destruct sep as [|c' sep']; [done|].
      rewrite str_app_cons in Hu. injection Hu as <- ->. eauto. }
    replace (String.length sep - 1)%nat with (String.length sep')
      by (rewrite Hsep; cbn; lia).
    pose proof (IH (String.length sep')) as IH'.
    destruct (split_go sep (String.length sep') (sep' +:+ u))
      as [|x xs] eqn:Hs; [by apply split_go_nonempty in Hs|].
    rewrite str_join_cons2, IH', str_drop_app. by rewrite Hsep.
  - pose proof (IH 0%nat) as IH'.
    destruct (split_go sep 0 s) as [|x xs] eqn:Hs;
      [by apply split_go_nonempty in Hs|].
    rewrite str_join_cons_char, IH'. done.
Qed.

Lemma str_in_nonempty_nil : str_in sep "" = false.
Proof. by destruct sep. Qed.

Lemma split_go_sep_free k s x : x ∈ split_go sep k s → str_in sep x = false.
Proof.
  revert k x. induction s as [|c s IH]; intros k x.
  - intros ->%list_elem_of_singleton. apply str_in_nonempty_nil.
  - cbn [split_go]. destruct k as [|k]; [|apply IH].
    destruct (String.prefix sep (String c s)) eqn:Hp.
    + intros [->|Hx]%elem_of_cons; [|by eapply IH].
      apply str_in_nonempty_nil.
    + pose proof (split_go_join 0 s) as Hjoin.
      destruct (split_go sep 0 s) as [|p ps] eqn:Hs;
        [by apply split_go_nonempty in Hs|].
      intros [->|Hx]%elem_of_cons.
      * cbn [str_in]. rewrite (IH 0%nat p) by (rewrite Hs; by left).
        rewrite orb_false_r. apply not_true_is_false. intros [u Hu]%prefix_spec.
        destruct (str_join_head p ps) as [w Hw]. rewrite Hjoin in Hw.
        cbn in Hw. rewrite Hw, <- str_app_cons, Hu, str_app_assoc in Hp.
        by rewrite prefix_app in Hp.
      * apply (IH 0%nat). rewrite Hs. by right.
Qed.
End split.

Lemma str_split_join sep s : sep ≠ "" → str_join sep (str_split sep s) = s.
Proof. intros Hsep. by apply (split_go_join sep Hsep 0). Qed.

Lemma str_split_sep_free sep s x :
  sep ≠ "" → x ∈ str_split sep s → str_in sep x = false.
Proof. intros Hsep. by apply split_go_sep_free. Qed.

Lemma elem_of_field_pieces sep field bib x :
  x ∈ field_pieces sep field bib ↔
  ∃ e value, e ∈ bib ∧ e !! field = Some value ∧ x ∈ str_split sep value.
Proof.
  unfold field_pieces. rewrite list_elem_of_bind. split.
  - intros (e & Hx & He). destruct (e !! field) as [value|] eqn:Hv.
    + by exists e, value.
    + by apply elem_of_nil in Hx.
  - intros (e & value & He & Hv & Hx). exists e. by rewrite Hv.
Qed.

Lemma str_le_ne_lt a b : String.le a b → a ≠ b → str_lt a b.
Proof.
  unfold String.le, str_lt, String.leb, String.ltb.
  destruct (String.compare a b) eqn:Hc; [|done..].
  by apply String.compare_eq_iff in Hc.
Qed.

Lemma sorted_elem_of s x : x ∈ sorted s ↔ x ∈ s.
Proof. unfold sorted. by rewrite merge_sort_Permutation, elem_of_elements. Qed.

Lemma sorted_NoDup s : NoDup (sorted s).
Proof. unfold sorted. rewrite merge_sort_Permutation. apply NoDup_elements. Qed.

Lemma sorted_length s : length (sorted s) = size s.
Proof. unfold sorted. by rewrite merge_sort_Permutation. Qed.

Lemma sorted_increasing s : StronglySorted str_lt (sorted s).
Proof.
  pose proof (sorted_NoDup s) as Hnd.
  assert (Hs : StronglySorted String.le (sorted s))
    by (apply StronglySorted_merge_sort; apply _).
  induction Hs as [|x l Hs IH Hx]; [constructor|].
  apply NoDup_cons in Hnd as [Hnotin Hnd].
  constructor; [by apply IH|].
  apply Forall_forall. intros y Hy.
  apply str_le_ne_lt; [by eapply Forall_forall in Hx|]. by intros ->.
Qed.

Lemma elem_of_set xs x : x ∈ set xs ↔ x ∈ xs.
Proof. unfold set. apply elem_of_list_to_set. Qed.

(** ** Facts about the article renderer *)

Lemma list_articles_body_row articles e :
  list_articles_body articles e =
    articles +:+ default "" (article_row_spec e).
Proof.
  unfold list_articles_body, article_row_spec, code_cell_spec.
  destruct (e !! "title") as [title|]; simpl; [|by rewrite str_app_nil_r].
  destruct (e !! "link") as [link|], (e !! "code") as [code|];
    repeat case_match; by rewrite !str_app_assoc.
Qed.

Lemma fold_list_articles bib acc :
  fold_left list_articles_body bib acc =
    acc +:+ flat (omap article_row_spec bib).
Proof.
  revert acc. induction bib as [|e bib IH]; intros acc; simpl.
  - by rewrite str_app_nil_r.
  - rewrite IH, list_articles_body_row, str_app_assoc. f_equal.
    by destruct (article_row_spec e).
Qed.

(** *** Lines of a file *)

Lemma split_lines_flat s : flat (split_lines s) = s.
Proof.
  induction s as [|c s IH]; [done|]. cbn [split_lines].
  destruct (Ascii.eqb c LF).
  - unfold flat in *. simpl. by rewrite IH.
  - destruct (split_lines s) as [|l ls]; unfold flat in *; simpl in *.
    + by rewrite <- IH.
    + by rewrite <- IH.
Qed.

(** The lines put together again are the file as text mode reads it. *)
Lemma file_lines_flat doc : flat (file_lines doc) = universal_newlines doc.
Proof. apply split_lines_flat. Qed.

Lemma split_lines_terminated s pre l post :
  split_lines s = pre ++ l :: post → post ≠ [] → ∃ x, l = x +:+ nl.
Proof.
  revert pre l post. induction s as [|c s IH]; intros pre l post.
  { by destruct pre. }
  cbn [split_lines]. destruct (Ascii.eqb_spec c LF) as [->|Hc].
  - destruct pre as [|p pre]; simpl; intros [= <- Hrest] Hpost.
    + by exists "".
    + by eapply IH.
  - destruct (split_lines s) as [|l0 ls] eqn:Hls.
    { destruct pre as [|p [|? ?]]; simpl; intros [= <- Hrest]; by subst. }
    destruct pre as [|p pre]; simpl; intros [= <- Hrest] Hpost.
    + destruct (IH [] l0 post) as [x ->]; [by subst|done|].
      by exists (String c x).
    + by eapply (IH (l0 :: pre)); [rewrite Hrest|].
Qed.

(** Only the last line of a file can lack its newline. *)
Lemma file_lines_terminated doc pre l post :
  file_lines doc = pre ++ l :: post → post ≠ [] → ∃ x, l = x +:+ nl.
Proof. apply split_lines_terminated. Qed.

Lemma no_cr_cons c x : no_cr (String c x) ↔ c ≠ CR ∧ no_cr x.
Proof. unfold no_cr. cbn. by rewrite Forall_cons. Qed.

Lemma universal_newlines_id s : no_cr s → universal_newlines s = s.
Proof.
  induction s as [|c s IH]; [done|]. intros [Hc Hs]%no_cr_cons.
  cbn [universal_newlines]. destruct (Ascii.eqb_spec c CR); [done|].
  by rewrite IH.
Qed.

Lemma universal_newlines_no_cr s : no_cr (universal_newlines s).
Proof.
  induction s as [|c s IH]; [constructor|]. cbn [universal_newlines].
  destruct (Ascii.eqb_spec c CR) as [->|Hc].
  - destruct s as [|c' s]; [by repeat constructor|].
    destruct (Ascii.eqb_spec c' LF) as [->|Hc'].
    + cbn [universal_newlines] in IH. by rewrite Ascii.eqb_sym in IH.
    + apply no_cr_cons. done.
  - by apply no_cr_cons.
Qed.

(** *** The anchor test *)

Lemma table_anchor_true line :
  table_anchor line = Ok true ↔
    slice_to 2 line = "| " ∧ ∃ c, String.get 2 line = Some c ∧ c ≠ " "%char.
Proof.
  unfold table_anchor, slice_to.
  destruct line as [|a [|b [|c line]]]; cbn -[ascii_dec].
  - split; [done|]. by intros [[=] _].
  - destruct (ascii_dec "|" a); cbn -[ascii_dec]; (split; [done|]); by intros [[=] _].
  - destruct (ascii_dec "|" a) as [<-|]; cbn -[ascii_dec].
    + destruct (ascii_dec " " b) as [<-|]; cbn -[ascii_dec].
      * split; [done|]. by intros [_ (? & [=] & _)].
      * destruct (ascii_dec "|" b); cbn -[ascii_dec]; (split; [done|]); intros [[=] _]; done.
    + destruct (ascii_dec "|" b); cbn -[ascii_dec]; (split; [done|]); intros [[=] _]; done.
  - destruct (ascii_dec "|" a) as [<-|]; cbn -[ascii_dec].
    + destruct (ascii_dec " " b) as [<-|]; cbn -[ascii_dec].
      * destruct (Ascii.eqb_spec c " ") as [->|Hc]; cbn -[ascii_dec].
        -- split; [done|]. by intros [_ (? & [= <-] & ?)].
        -- split; [eauto|done].
      * destruct (ascii_dec "|" b); cbn -[ascii_dec]; (split; [done|]); intros [[=] _]; done.
    + destruct (ascii_dec "|" b); cbn -[ascii_dec]; (split; [done|]); intros [[=] _]; done.
Qed.

(** The test raises on one line only. *)
Lemma table_anchor_raise line e : table_anchor line = Raise e → line = "| ".
Proof.
  unfold table_anchor, slice_to.
  destruct line as [|a [|b [|c line]]]; cbn -[ascii_dec]; try done.
  - destruct (ascii_dec "|" a); cbn -[ascii_dec]; done.
  - destruct (ascii_dec "|" a) as [<-|]; cbn -[ascii_dec].
    + destruct (ascii_dec " " b) as [<-|]; cbn -[ascii_dec]; [done|].
      destruct (ascii_dec "|" b); cbn -[ascii_dec]; done.
    + destruct (ascii_dec "|" b); cbn -[ascii_dec]; done.
  - destruct (ascii_dec "|" a) as [<-|]; cbn -[ascii_dec].
    + destruct (ascii_dec " " b) as [<-|]; cbn -[ascii_dec]; [done|].
      destruct (ascii_dec "|" b); cbn -[ascii_dec]; done.
    + destruct (ascii_dec "|" b); cbn -[ascii_dec]; done.
Qed.

Lemma table_anchor_total line : line ≠ "| " → ∃ b, table_anchor line = Ok b.
Proof.
  intros Hne. destruct (table_anchor line) as [b|e] eqn:H; [eauto|].
  by apply table_anchor_raise in H.
Qed.

(** *** The loop, line by line *)

Section loop.
Variable fr : fragments.
Implicit Types (r line : string) (p : bool) (lines : list string).

Lemma flat_cons x (xs : list string) : flat (x :: xs) = x +:+ flat xs.
Proof. reflexivity. Qed.

Lemma readme_body_other r p line :
  table_anchor line = Ok false →
  readme_body fr (r, p) line = Ok (r +:+ count_or_copy fr line, p).
Proof.
  intros H. unfold readme_body, count_or_copy. rewrite H. cbn [mbind result_bind].
  repeat case_match; by rewrite ?str_app_assoc.
Qed.

Lemma readme_body_first r line :
  table_anchor line = Ok true →
  readme_body fr (r, false) line = Ok (r +:+ articles fr, true).
Proof. intros H. unfold readme_body. by rewrite H. Qed.

Lemma readme_body_again r line :
  table_anchor line = Ok true →
  readme_body fr (r, true) line = Ok (r, true).
Proof. intros H. unfold readme_body. by rewrite H. Qed.

Lemma for_each_app {A S} (body : S → A → result S) xs ys st :
  for_each body (xs ++ ys) st = for_each body xs st ≫= for_each body ys.
Proof.
  revert st. induction xs as [|x xs IH]; intros st; [done|].
  cbn [app for_each]. destruct (body st x); [apply IH|done].
Qed.

Lemma for_each_pieces lines r p :
  Forall (λ l, l ≠ "| ") lines →
  for_each (readme_body fr) lines (r, p) =
    Ok (r +:+ flat (pieces fr p lines), p || existsb is_anchor lines).
Proof.
  intros Hlines. revert r p.
  induction Hlines as [|l ls Hl _ IH]; intros r p.
  - cbn. by rewrite str_app_nil_r, orb_false_r.
  - cbn [for_each pieces existsb]. unfold is_anchor at 1.
    destruct (table_anchor_total l Hl) as [[] Hb]; rewrite Hb.
    + destruct p.
      * rewrite readme_body_again by done. cbn [mbind result_bind].
        by rewrite IH, flat_cons.
      * rewrite readme_body_first by done. cbn [mbind result_bind].
        by rewrite IH, flat_cons, str_app_assoc.
    + rewrite readme_body_other by done. cbn [mbind result_bind].
      by rewrite IH, flat_cons, str_app_assoc.
Qed.

Lemma length_pieces lines p : length (pieces fr p lines) = length lines.
Proof.
  revert p. induction lines as [|l ls IH]; intros p; [done|].
  cbn [pieces]. destruct (table_anchor l) as [[]|]; simpl; by rewrite IH.
Qed.

Lemma pieces_lookup_other lines p (i : nat) line :
  lines !! i = Some line → table_anchor line = Ok false →
  pieces fr p lines !! i = Some (count_or_copy fr line).
Proof.
  revert p i. induction lines as [|l ls IH]; intros p i; [done|].
  destruct i as [|i]; cbn [pieces].
  - intros [= ->] ->. done.
  - intros Hi Hline. destruct (table_anchor l) as [[]|]; simpl; by apply IH.
Qed.

Lemma pieces_no_anchor lines p :
  Forall (λ l, table_anchor l ≠ Ok true) lines →
  pieces fr p lines = count_or_copy fr <$> lines.
Proof.
  induction 1 as [|l ls Hl _ IH]; [done|]. cbn [pieces].
  destruct (table_anchor l) as [[]|]; by rewrite ?IH.
Qed.

Lemma pieces_pasted lines :
  pieces fr true lines =
    (λ l, if is_anchor l then "" else count_or_copy fr l) <$> lines.
Proof.
  induction lines as [|l ls IH]; [done|]. cbn [pieces fmap list_fmap].
  unfold is_anchor at 1. destruct (table_anchor l) as [[]|]; by rewrite IH.
Qed.

Lemma pieces_app lines1 lines2 p :
  pieces fr p (lines1 ++ lines2) =
    pieces fr p lines1 ++ pieces fr (p || existsb is_anchor lines1) lines2.
Proof.
  revert p. induction lines1 as [|l ls IH]; intros p.
  - by rewrite orb_false_r.
  - cbn [app pieces existsb]. unfold is_anchor at 1.
    destruct (table_anchor l) as [[]|]; cbn [app]; rewrite IH;
      by destruct p.
Qed.

Lemma existsb_no_anchor lines :
  Forall (λ l, table_anchor l ≠ Ok true) lines → existsb is_anchor lines = false.
Proof.
  induction 1 as [|l ls Hl _ IH]; [done|]. cbn [existsb]. rewrite IH.
  unfold is_anchor. by destruct (table_anchor l) as [[]|].
Qed.

Lemma file_lines_no_raise doc :
  last (file_lines doc) ≠ Some "| " → Forall (λ l, l ≠ "| ") (file_lines doc).
Proof.
  intros Hlast. apply Forall_forall. intros l Hl ->.
  apply list_elem_of_split in Hl as (pre & post & Hsplit).
  destruct (decide (post = [])) as [->|Hpost].
  - apply Hlast. by rewrite Hsplit, last_snoc.
  - destruct (file_lines_terminated _ _ _ _ Hsplit Hpost) as [x Hx].
    destruct x as [|a [|b [|c x]]]; done.
Qed.

(** The one document on which the loop fails: its last line is "| ", with
    no newline after it, and [line[2]] does not exist. *)
Lemma for_each_readme_raises doc r p :
  last (file_lines doc) = Some "| " →
  for_each (readme_body fr) (file_lines doc) (r, p) = Raise IndexError.
Proof.
  intros [l0 Hlines]%last_Some. rewrite Hlines, for_each_app.
  assert (Hpre : Forall (λ l, l ≠ "| ") l0).
  { apply Forall_forall. intros l Hl ->.
    apply list_elem_of_split in Hl as (pre & post & ->).
    rewrite <- List.app_assoc in Hlines. cbn [app] in Hlines.
    destruct (file_lines_terminated _ _ _ _ Hlines) as [x Hx];
      [by destruct post|].
    destruct x as [|a [|b [|c x]]]; done. }
  by rewrite for_each_pieces.
Qed.
End loop.

Section rewrite.
Variable fr : fragments.

Lemma rewrite_lines_pieces lines :
  Forall (λ l, l ≠ "| ") lines →
  rewrite_lines fr lines = Ok (flat (pieces fr false lines)).
Proof.
  intros H. unfold rewrite_lines. by rewrite for_each_pieces.
Qed.


Lemma flat_pasted_filter lines :
  flat (pieces fr true lines) =
  flat (count_or_copy fr <$> filter (λ x, is_anchor x = false) lines).
Proof.
  rewrite pieces_pasted.
  induction lines as [|l ls IH]; [done|].
  rewrite filter_cons. cbn [fmap list_fmap]. rewrite flat_cons, IH.
  destruct (is_anchor l) eqn:Hl.
  - by rewrite decide_False.
  - by rewrite decide_True.
Qed.

Lemma filter_no_anchor lines :
  Forall (λ x, table_anchor x ≠ Ok true)
         (filter (λ x, is_anchor x = false) lines).
Proof.
  apply Forall_forall. intros x [Hx _]%list_elem_of_filter.
  unfold is_anchor in Hx. by destruct (table_anchor x) as [[]|].
Qed.
End rewrite.

Lemma list_ascii_app s t :
  String.list_ascii_of_string (s +:+ t) =
  String.list_ascii_of_string s ++ String.list_ascii_of_string t.
Proof. induction s as [|c s IH]; [done|]. rewrite str_app_cons. cbn. by rewrite IH. Qed.

Lemma pretty_N_go_digits x s :
  Forall is_digit (String.list_ascii_of_string s) →
  Forall is_digit (String.list_ascii_of_string (pretty_N_go x s)).
Proof.
  revert s. induction (N.lt_wf_0 x) as [x _ IH]; intros s Hs.
  destruct (decide (x = 0)%N) as [->|Hx]; [by rewrite pretty_N_go_0|].
  rewrite pretty_N_go_step by lia. apply IH.
  - apply N.div_lt; lia.
  - cbn. constructor; [|done].
    unfold pretty_N_char, is_digit. repeat case_match; by eexists.
Qed.

Lemma str_of_nat_digits n :
  Forall is_digit (String.list_ascii_of_string (str_of_nat n)).
Proof.
  unfold str_of_nat, pretty, pretty_nat, pretty, pretty_N.
  case_decide.
  - repeat constructor. by eexists.
  - apply pretty_N_go_digits. constructor.
Qed.

(** A needle that starts with a letter is found in a count line only after
    the dash and the number. *)
Lemma str_in_count_line c s n rest :
  Ascii.is_nat c = None → c ≠ "-"%char → c ≠ " "%char →
  str_in (String c s) ("- " +:+ str_of_nat n +:+ rest) =
  str_in (String c s) rest.
Proof.
  intros Hc Hdash Hspace.
  rewrite <- str_app_assoc. apply str_in_skip.
  rewrite list_ascii_app. apply Forall_app. split.
  - repeat constructor; by intros <-.
  - eapply Forall_impl; [apply str_of_nat_digits|].
    intros d [k Hk] ->. congruence.
Qed.

Lemma table_anchor_dash s : table_anchor ("- " +:+ s) = Ok false.
Proof. by destruct s. Qed.

(** The four count lines whose template repeats the anchor. *)
Lemma count_anchors_reproduced (nb : string) :
  str_in "papers referenced"
    ("- " +:+ nb +:+ " papers referenced. " +:+
     "See the details in [dl4m.bib](dl4m.bib)." +:+ nl) = true ∧
  str_in "unique researchers"
    ("- " +:+ nb +:+ " unique researchers. " +:+
     "See the list of [authors](authors.md)." +:+ nl) = true ∧
  str_in "tasks investigated"
    ("- " +:+ nb +:+ " tasks investigated. " +:+
     "See the list of [tasks](tasks.md)." +:+ nl) = true ∧
  str_in "datasets used"
    ("- " +:+ nb +:+ " datasets used. " +:+
     "See the list of [datasets](datasets.md)." +:+ nl) = true.
Proof.
  repeat split; apply str_in_spec.
  - exists ("- " +:+ nb +:+ " "),
      (". See the details in [dl4m.bib](dl4m.bib)." +:+ nl).
    by rewrite !str_app_assoc.
  - exists ("- " +:+ nb +:+ " "), (". See the list of [authors](authors.md)." +:+ nl).
    by rewrite !str_app_assoc.
  - exists ("- " +:+ nb +:+ " "), (". See the list of [tasks](tasks.md)." +:+ nl).
    by rewrite !str_app_assoc.
  - exists ("- " +:+ nb +:+ " "), (". See the list of [datasets](datasets.md)." +:+ nl).
    by rewrite !str_app_assoc.
Qed.

(** ** The extractors *)

Lemma get_authors_loop_ok bib acc :
  (∀ e, e ∈ bib → is_Some (e !! "author")) →
  for_each get_authors_body bib acc =
    Ok (acc ++ field_pieces " and " "author" bib).
Proof.
  revert acc. induction bib as [|e bib IH]; intros acc Hall.
  - cbn. by rewrite app_nil_r.
  - destruct (Hall e) as [value Hv]; [by left|].
    cbn [for_each].
    assert (get_authors_body acc e = Ok (acc ++ str_split " and " value)) as ->
      by (unfold get_authors_body; by rewrite Hv).
    cbn [mbind result_bind]. rewrite IH by (intros; apply Hall; by right).
    unfold field_pieces. cbn [mbind list_bind]. rewrite Hv. cbn.
    by rewrite <- List.app_assoc.
Qed.

Lemma get_authors_loop_missing bib acc :
  (∃ e, e ∈ bib ∧ e !! "author" = None) →
  for_each get_authors_body bib acc = Raise (KeyError "author").
Proof.
  revert acc. induction bib as [|e bib IH]; intros acc (e' & He' & Hnone).
  - by apply elem_of_nil in He'.
  - cbn [for_each].
    destruct (e !! "author") as [value|] eqn:Hv.
    2: { assert (get_authors_body acc e = Raise (KeyError "author")) as ->
           by (unfold get_authors_body; by rewrite Hv).
         done. }
    assert (get_authors_body acc e = Ok (acc ++ str_split " and " value)) as ->
      by (unfold get_authors_body; by rewrite Hv).
    cbn [mbind result_bind]. apply IH. exists e'.
    apply elem_of_cons in He' as [->|?]; [congruence|done].
Qed.

Lemma get_field_loop field_name bib acc missing :
  fold_left (get_field_body field_name) bib (acc, missing) =
    (acc ++ field_pieces " & " field_name bib,
     (missing + length (filter (λ e, e !! field_name = None) bib))%nat).
Proof.
  revert acc missing. induction bib as [|e bib IH]; intros acc missing.
  - cbn. by rewrite app_nil_r, Nat.add_0_r.
  - cbn [fold_left]. rewrite filter_cons.
    unfold field_pieces. cbn [mbind list_bind].
    destruct (e !! field_name) as [value|] eqn:Hv.
    + assert (get_field_body field_name (acc, missing) e =
              (acc ++ str_split " & " value, missing)) as ->
        by (unfold get_field_body; by rewrite Hv).
      rewrite IH, decide_False by done. cbn. by rewrite <- List.app_assoc.
    + assert (get_field_body field_name (acc, missing) e = (acc, S missing)) as ->
        by (unfold get_field_body; by rewrite Hv).
      rewrite IH, decide_True by done. cbn. f_equal. lia.
Qed.

Lemma get_authors_run bib w :
  (∀ e, e ∈ bib → is_Some (e !! "author")) →
  get_authors bib w =
    (Ok (length (field_values " and " "author" bib)),
     World (<["authors.md" :=
                "# List of authors" +:+ nl +:+ nl +:+
                flat ((λ author, "- " +:+ author +:+ nl) <$>
                      field_values " and " "author" bib)]>
              (files w))
           (stdout w ++
            [str_join " " ["There are";
                           str_of_nat (length (field_values " and " "author" bib));
                           "researchers working on DL4M."];
             "List of authors written in authors.md"])
           (figures w)).
Proof.
  intros Hall. unfold get_authors, lift. unfold mbind at 1, M_bind.
  rewrite get_authors_loop_ok by done. run_M.
  by rewrite <- List.app_assoc.
Qed.

Lemma get_field_run bib field_name w :
  field_name ∈ fields →
  get_field bib field_name w =
    (Ok (length (field_values " & " field_name bib)),
     World (<[field_name +:+ "s.md" :=
                "# List of " +:+ field_name +:+ "s" +:+ nl +:+ nl +:+
                "Please refer to the list of useful acronyms used in deep " +:+
                "learning and music: [acronyms.md](acronyms.md)." +:+ nl +:+ nl +:+
                flat ((λ field, "- " +:+ field +:+ nl) <$>
                      field_values " & " field_name bib)]>
              (files w))
           (stdout w ++
            [str_of_nat (length (filter (λ e, e !! field_name = None) bib)) +:+
               " entries are missing the " +:+ field_name +:+ " field.";
             str_of_nat (length (field_values " & " field_name bib)) +:+
               " unique " +:+ field_name +:+ ".";
             str_join " " ["List of " +:+ field_name +:+ "s written in";
                           field_name +:+ "s.md"]])
           (figures w)).
Proof.
  intros Hvalid. unfold get_field, validate_field.
  rewrite bool_decide_eq_true_2 by done.
  rewrite get_field_loop. run_M. unfold field_values.
  by rewrite sorted_length, <- !List.app_assoc.
Qed.

Lemma field_values_increasing sep field bib :
  StronglySorted str_lt (field_values sep field bib).
Proof. apply sorted_increasing. Qed.

Lemma elem_of_field_values sep field bib x :
  x ∈ field_values sep field bib ↔
  ∃ e value, e ∈ bib ∧ e !! field = Some value ∧ x ∈ str_split sep value.
Proof.
  unfold field_values.
  by rewrite sorted_elem_of, elem_of_set, elem_of_field_pieces.
Qed.

(** The whole of [generate_summary_table]: the README is rewritten with the
    fragments computed from the bibliography. *)
Lemma generate_summary_table_run bib w doc out :
  (∀ e, e ∈ bib → is_Some (e !! "author")) →
  files w !! "README.md" = Some doc →
  rewrite_readme (fragments_of bib) doc = Ok out →
  ∃ w', generate_summary_table bib w = (Ok (), w') ∧
        files w' !! "README.md" = Some out.
Proof.
  intros Hall Hdoc Hout. eexists. split.
  - unfold generate_summary_table, get_nb_articles.
    unfold mbind at 1, M_bind. unfold mbind at 1, M_bind.
    unfold print at 1. cbn [files stdout figures].
    unfold mret at 1, M_ret.
    unfold mbind at 1, M_bind. rewrite get_authors_run by done.
    unfold mbind at 1, M_bind.
    rewrite get_field_run by by apply (bool_decide_unpack _).
    unfold mbind at 1, M_bind.
    rewrite get_field_run by by apply (bool_decide_unpack _).
    unfold mbind at 1, M_bind.
    rewrite get_field_run by by apply (bool_decide_unpack _).
    unfold mbind at 1, M_bind. unfold read_file at 1. cbn [files].
    rewrite !lookup_insert_ne by done. rewrite Hdoc.
    unfold mbind at 1, M_bind, lift. fold (fragments_of bib). rewrite Hout.
    run_M. reflexivity.
  - cbn [files]. by rewrite lookup_insert_eq.
Qed.

(** ** Facts about the histogram *)

Section histogram.
Implicit Types (xs years : list Z) (lo hi : Z) (n i : nat).

Lemma articles_per_year_loop bib years acc :
  Forall2 (λ (e : dict) y, ∃ s, e !! "year" = Some s ∧ int_of_str s = Some y)
          bib years →
  for_each articles_per_year_body bib acc = Ok (acc ++ years).
Proof.
  intros H. revert acc.
  induction H as [|e y bib years (s & Hs & Hy) _ IH]; intros acc.
  - cbn. by rewrite app_nil_r.
  - cbn [for_each].
    assert (articles_per_year_body acc e = Ok (acc ++ [y])) as ->
      by (unfold articles_per_year_body; by rewrite Hs, Hy).
    cbn [mbind result_bind]. by rewrite IH, <- List.app_assoc.
Qed.

Lemma foldl_min_spec x xs :
  foldl Z.min x xs ∈ x :: xs ∧ ∀ y, y ∈ x :: xs → (foldl Z.min x xs ≤ y)%Z.
Proof.
  revert x. induction xs as [|a xs IH]; intros x.
  - split; [by left|]. intros y ->%list_elem_of_singleton. done.
  - cbn [foldl]. destruct (IH (Z.min x a)) as [Hin Hle]. split.
    + apply elem_of_cons in Hin as [->|Hin].
      * destruct (Z.min_spec x a) as [[_ ->]|[_ ->]];
          [by left|right; by left].
      * right. by right.
    + intros y [->|[->|Hy]%elem_of_cons]%elem_of_cons.
      * pose proof (Hle (Z.min x a) ltac:(by left)). lia.
      * pose proof (Hle (Z.min x a) ltac:(by left)). lia.
      * apply Hle. by right.
Qed.

Lemma foldl_max_spec x xs :
  foldl Z.max x xs ∈ x :: xs ∧ ∀ y, y ∈ x :: xs → (y ≤ foldl Z.max x xs)%Z.
Proof.
  revert x. induction xs as [|a xs IH]; intros x.
  - split; [by left|]. intros y ->%list_elem_of_singleton. done.
  - cbn [foldl]. destruct (IH (Z.max x a)) as [Hin Hle]. split.
    + apply elem_of_cons in Hin as [->|Hin].
      * destruct (Z.max_spec x a) as [[_ ->]|[_ ->]];
          [right; by left|by left].
      * right. by right.
    + intros y [->|[->|Hy]%elem_of_cons]%elem_of_cons.
      * pose proof (Hle (Z.max x a) ltac:(by left)). lia.
      * pose proof (Hle (Z.max x a) ltac:(by left)). lia.
      * apply Hle. by right.
Qed.



Lemma length_filter_ext (P Q : Z → Prop) `{∀ x, Decision (P x)}
    `{∀ x, Decision (Q x)} xs :
  (∀ x, x ∈ xs → P x ↔ Q x) →
  length (filter P xs) = length (filter Q xs).
Proof.
  induction xs as [|a xs IH]; intros Hext; [done|].
  rewrite !filter_cons.
  assert (IH' : length (filter P xs) = length (filter Q xs))
    by (apply IH; intros; apply Hext; by right).
  pose proof (Hext a ltac:(by left)) as Ha.
  destruct (decide (P a)), (decide (Q a)); cbn; try tauto; by rewrite IH'.
Qed.

Lemma np_histogram_cons xs lo hi (e : Z) rest :
  np_histogram xs (lo :: hi :: e :: rest) =
  length (filter (λ x, lo ≤ x < hi)%Z xs) :: np_histogram xs (hi :: e :: rest).
Proof. reflexivity. Qed.

End histogram.

(** ** Facts about the loader *)

Section loader.
Variable bib_database : Type.
Variable entries : bib_database → list dict.
Variable loads : string → result bib_database.
Variable writer_write : bib_database → string.

(** What [load_bib] returns is the parse of what it has just written. *)
Lemma load_bib_persisted filen w x db db' :
  files w !! filen = Some x →
  loads x = Ok db →
  loads (writer_write db) = Ok db' →
  load_bib bib_database entries loads writer_write filen w =
    (Ok (entries db'),
     World (<[filen := writer_write db]> (files w)) (stdout w) (figures w)).
Proof.
  intros Hx Hdb Hdb'. unfold load_bib, read_bib, write_bib, read_file.
  run_M. rewrite Hx, Hdb. cbn [files]. by rewrite lookup_insert_eq, Hdb'.
Qed.
End loader.

(** * Properties *)

(** C1 (as amended): the document is read in text mode, so its lines are
    those of the text in which every carriage return, alone or before a line
    feed, is a line feed.  On every document whose last such line is not the
    two-character line "| ", the run completes and its output is the
    concatenation, in order, of one piece per line, where a line that fails
    the table test and contains "papers referenced" yields the line
    "- <count> papers referenced. See the details in [dl4m.bib](dl4m.bib).",
    and a line that matches no anchor at all yields itself as it was read:
    byte for byte, up to the translation of its line ending. *)
Theorem rewrite_readme_frame (fr : fragments) (doc : string) :
  last (file_lines doc) ≠ Some "| " →
  ∃ out ps,
    rewrite_readme fr doc = Ok out ∧ out = flat ps ∧
    length ps = length (file_lines doc) ∧
    (∀ (i : nat) line,
       file_lines doc !! i = Some line →
       table_anchor line = Ok false →
       (str_in "papers referenced" line = true →
        ps !! i = Some ("- " +:+ nb_articles fr +:+
                        " papers referenced. See the details in [dl4m.bib](dl4m.bib)."
                        +:+ nl)) ∧
       (str_in "papers referenced" line = false →
        str_in "unique researchers" line = false →
        str_in "tasks investigated" line = false →
        str_in "datasets used" line = false →
        str_in "architecture used" line = false →
        ps !! i = Some line)) ∧
    str_in (nb_articles fr +:+ " papers referenced.")
           ("- " +:+ nb_articles fr +:+
            " papers referenced. See the details in [dl4m.bib](dl4m.bib)." +:+ nl)
      = true ∧
    str_in "[dl4m.bib](dl4m.bib)"
           ("- " +:+ nb_articles fr +:+
            " papers referenced. See the details in [dl4m.bib](dl4m.bib)." +:+ nl)
      = true ∧
    flat (file_lines doc) = universal_newlines doc ∧
    (Forall (λ c, c ≠ CR) (String.list_ascii_of_string doc) →
     flat (file_lines doc) = doc).
Proof.
  intros Hlast. apply file_lines_no_raise in Hlast.
  exists (flat (pieces fr false (file_lines doc))), (pieces fr false (file_lines doc)).
  split; [by apply rewrite_lines_pieces|]. split; [done|].
  split; [apply length_pieces|]. split; [|split; [|split; [|split]]].
  - intros i line Hi Hline.
    rewrite (pieces_lookup_other fr _ _ _ _ Hi Hline). unfold count_or_copy.
    split.
    + by intros ->.
    + by intros -> -> -> -> ->.
  - apply str_in_spec. exists "- ", (" See the details in [dl4m.bib](dl4m.bib)." +:+ nl).
    by rewrite !str_app_assoc.
  - apply str_in_spec.
    exists ("- " +:+ nb_articles fr +:+ " papers referenced. See the details in "),
           ("." +:+ nl).
    by rewrite !str_app_assoc.
  - apply file_lines_flat.
  - intros Hcr. rewrite file_lines_flat. by apply universal_newlines_id.
Qed.

Lemma rewrite_readme_frame_witness :
  let fr := Fragments "15" "40" "7" "9" "5" "" in
  let doc := "# DL4M" +:+ nl +:+ "- 10 papers referenced. See details." +:+ nl in
  last (file_lines doc) ≠ Some "| " ∧
  ∃ out ps, rewrite_readme fr doc = Ok out ∧ out = flat ps ∧
            length ps = length (file_lines doc).
Proof.
  intros fr doc.
  assert (Hlast : last (file_lines doc) ≠ Some "| ") by (vm_compute; intros [=]).
  split; [exact Hlast|].
  destruct (rewrite_readme_frame fr doc Hlast) as (out & ps & Hrun & Hout & Hlen & _).
  by exists out, ps.
Defined.

(** The example of the specification: the count line is refreshed, the
    heading is untouched. *)
Example rewrite_readme_papers_line :
  rewrite_readme (Fragments "15" "40" "7" "9" "5" "")
    ("# DL4M" +:+ nl +:+ "- 10 papers referenced. See details." +:+ nl) =
  Ok ("# DL4M" +:+ nl +:+
      "- 15 papers referenced. See the details in [dl4m.bib](dl4m.bib)." +:+ nl).
Proof. by vm_compute. Qed.

(** A table row that mentions "papers referenced" is handled as a table
    line: it is not turned into the count line. *)
Lemma rewrite_readme_count_in_table_row :
  file_lines ("| Title | Code |" +:+ nl +:+
              "| 10 papers referenced in a survey | No |" +:+ nl) =
    ["| Title | Code |" +:+ nl;
     "| 10 papers referenced in a survey | No |" +:+ nl] ∧
  str_in "papers referenced"
    ("| 10 papers referenced in a survey | No |" +:+ nl) = true ∧
  rewrite_readme (Fragments "15" "40" "7" "9" "5" ("| [A](u) | No |" +:+ nl))
    ("| Title | Code |" +:+ nl +:+
     "| 10 papers referenced in a survey | No |" +:+ nl) =
    Ok ("| [A](u) | No |" +:+ nl) ∧
  str_in "15 papers referenced." ("| [A](u) | No |" +:+ nl) = false.
Proof. by vm_compute. Qed.

(** A document that ends in "| " without a newline stops the run. *)
Example rewrite_readme_index_error :
  rewrite_readme (Fragments "15" "40" "7" "9" "5" "") ("# DL4M" +:+ nl +:+ "| ") =
  Raise IndexError.
Proof. by vm_compute. Qed.

(** Carriage returns: a README with CR LF line ends is written back with
    line feeds, and a lone carriage return ends a line, so that "| " after
    it is a last line of two characters. *)
Example rewrite_readme_carriage_returns :
  file_lines ("a" +:+ String CR nl +:+ "b" +:+ String CR "c") =
    ["a" +:+ nl; "b" +:+ nl; "c"] ∧
  rewrite_readme (Fragments "15" "40" "7" "9" "5" "")
    ("a" +:+ String CR nl +:+ "b" +:+ String CR nl) =
    Ok ("a" +:+ nl +:+ "b" +:+ nl) ∧
  rewrite_readme (Fragments "15" "40" "7" "9" "5" "") ("x" +:+ String CR "| ") =
    Raise IndexError ∧
  rewrite_readme (Fragments "15" "40" "7" "9" "5" "T")
    ("x" +:+ String CR "| a" +:+ nl) = Ok ("x" +:+ nl +:+ "T").
Proof. by vm_compute. Qed.

(** A whole run of [generate_summary_table] on a two-record bibliography. *)
Example generate_summary_table_example :
  let bib : list dict :=
    [ {[ "title" := "A"; "link" := "u"; "code" := "No";
         "author" := "X and Y"; "task" := "T1 & T2" ]};
      {[ "title" := "B"; "author" := "X" ]} ] in
  let w := World {[ "README.md" :=
                      "# DL4M" +:+ nl +:+ "- 0 papers referenced. x" +:+ nl +:+
                      "- 0 tasks investigated." +:+ nl +:+
                      "| Title | Code |" +:+ nl +:+ "| old | No |" +:+ nl +:+
                      "end" +:+ nl ]} [] ∅ in
  (generate_summary_table bib w).1 = Ok () ∧
  files (generate_summary_table bib w).2 !! "README.md" =
    Some ("# DL4M" +:+ nl +:+
          "- 2 papers referenced. See the details in [dl4m.bib](dl4m.bib)." +:+ nl +:+
          "- 2 tasks investigated. See the list of [tasks](tasks.md)." +:+ nl +:+
          "| [A](u) | No |" +:+ nl +:+ "| B | No |" +:+ nl +:+
          "end" +:+ nl) ∧
  files (generate_summary_table bib w).2 !! "authors.md" =
    Some ("# List of authors" +:+ nl +:+ nl +:+ "- X" +:+ nl +:+ "- Y" +:+ nl).
Proof. by vm_compute. Qed.

(** C2: a line passes the table test exactly when its first two characters
    are "| " and it has a third character that is not a space; the articles
    fragment takes the place of the first such line; and nothing after that
    line inserts it again: the output is the rewrite of the lines before it,
    the fragment once, and the rewrite of the later lines that are not table
    lines, and a rewrite of lines without a table line does not depend on
    the articles fragment at all. *)
Theorem table_anchor_spliced_once (fr : fragments) :
  (∀ line,
     table_anchor line = Ok true ↔
     slice_to 2 line = "| " ∧ ∃ c, String.get 2 line = Some c ∧ c ≠ " "%char) ∧
  (∀ doc pre l post,
     file_lines doc = pre ++ l :: post →
     Forall (λ x, table_anchor x ≠ Ok true) pre →
     table_anchor l = Ok true →
     last (file_lines doc) ≠ Some "| " →
     ∃ out_pre out_post,
       rewrite_lines fr pre = Ok out_pre ∧
       rewrite_lines fr (filter (λ x, is_anchor x = false) post) = Ok out_post ∧
       rewrite_readme fr doc = Ok (out_pre +:+ articles fr +:+ out_post)) ∧
  (∀ fr' lines,
     Forall (λ x, table_anchor x ≠ Ok true) lines →
     nb_articles fr' = nb_articles fr → nb_authors fr' = nb_authors fr →
     nb_tasks fr' = nb_tasks fr → nb_datasets fr' = nb_datasets fr →
     nb_archi fr' = nb_archi fr →
     rewrite_lines fr' lines = rewrite_lines fr lines).
Proof.
  split; [apply table_anchor_true|]. split.
  - intros doc pre l post Hsplit Hpre Hl Hlast.
    pose proof (file_lines_no_raise _ Hlast) as Hok.
    unfold rewrite_readme. rewrite Hsplit in Hok |- *.
    apply Forall_app in Hok as [Hok_pre [_ Hok_post]%Forall_cons].
    exists (flat (count_or_copy fr <$> pre)),
           (flat (count_or_copy fr <$> filter (λ x, is_anchor x = false) post)).
    split; [|split].
    + rewrite rewrite_lines_pieces by done. by rewrite pieces_no_anchor.
    + rewrite rewrite_lines_pieces.
      * by rewrite pieces_no_anchor by apply filter_no_anchor.
      * apply Forall_forall. intros x [_ Hx]%list_elem_of_filter.
        by eapply Forall_forall in Hok_post.
    + rewrite rewrite_lines_pieces.
      2:{ apply Forall_app. split; [done|]. apply Forall_cons. split; [|done].
          intros ->. done. }
      rewrite pieces_app, existsb_no_anchor by done. cbn [pieces orb]. rewrite Hl.
      rewrite flat_app, flat_cons, pieces_no_anchor, flat_pasted_filter by done.
      done.
  - intros fr' lines Hlines E1 E2 E3 E4 E5. unfold rewrite_lines.
    assert (Hgen : ∀ st,
      for_each (readme_body fr') lines st = for_each (readme_body fr) lines st).
    { induction Hlines as [|l ls Hl _ IH]; intros [r p]; [done|].
      cbn [for_each].
      assert (readme_body fr' (r, p) l = readme_body fr (r, p) l) as ->.
      { unfold readme_body. rewrite E1, E2, E3, E4, E5.
        destruct (table_anchor l) as [[]|]; done. }
      destruct (readme_body fr (r, p) l); [apply IH|done]. }
    by rewrite Hgen.
Qed.

Lemma table_anchor_spliced_once_witness :
  let fr := Fragments "15" "40" "7" "9" "5" ("| [A](u) | No |" +:+ nl) in
  let pre := ["# DL4M" +:+ nl] in
  let l := "| Title | Code |" +:+ nl in
  let post := ["| old row | No |" +:+ nl; "The end." +:+ nl] in
  let doc := flat (pre ++ l :: post) in
  (table_anchor l = Ok true ↔
   slice_to 2 l = "| " ∧ ∃ c, String.get 2 l = Some c ∧ c ≠ " "%char) ∧
  (∃ out_pre out_post,
     rewrite_lines fr pre = Ok out_pre ∧
     rewrite_lines fr (filter (λ x, is_anchor x = false) post) = Ok out_post ∧
     rewrite_readme fr doc = Ok (out_pre +:+ articles fr +:+ out_post)) ∧
  rewrite_lines (Fragments "15" "40" "7" "9" "5" "") pre = rewrite_lines fr pre.
Proof.
  intros fr pre l post doc.
  split; [apply (proj1 (table_anchor_spliced_once fr) l)|]. split.
  - apply (proj1 (proj2 (table_anchor_spliced_once fr)) doc pre l post).
    + reflexivity.
    + repeat constructor; vm_compute; intros [=].
    + reflexivity.
    + vm_compute. intros [=].
  - apply (proj2 (proj2 (table_anchor_spliced_once fr))); try reflexivity.
    repeat constructor; vm_compute; intros [=].
Defined.

(** The example behind C2 and C10, evaluated: the header row is replaced by
    the fragment, the old row disappears, the prose stays. *)
Example rewrite_readme_table :
  rewrite_readme (Fragments "15" "40" "7" "9" "5" ("| [A](u) | No |" +:+ nl))
    ("# DL4M" +:+ nl +:+ "| Title | Code |" +:+ nl +:+
     "| old row | No |" +:+ nl +:+ "The end." +:+ nl) =
  Ok ("# DL4M" +:+ nl +:+ "| [A](u) | No |" +:+ nl +:+ "The end." +:+ nl).
Proof. by vm_compute. Qed.

(** C3, where the code departs from it: a line matched by the anchor
    "architecture used" is replaced by "- <n> architectures used. ...", which
    does not contain "architecture used"; on the next run the line matches no
    anchor and is copied as it is, whatever the new count. *)
Theorem architecture_anchor_not_reproduced
    (n : nat) (a b c d art : string) (fr' : fragments)
    (line readme readme' : string) (pasted pasted' : bool) :
  table_anchor line = Ok false →
  str_in "papers referenced" line = false →
  str_in "unique researchers" line = false →
  str_in "tasks investigated" line = false →
  str_in "datasets used" line = false →
  str_in "architecture used" line = true →
  let repl := "- " +:+ str_of_nat n +:+ " architectures used. " +:+
              "See the list of [architectures](architectures.md)." +:+ nl in
  readme_body (Fragments a b c d (str_of_nat n) art) (readme, pasted) line =
    Ok (readme +:+ repl, pasted) ∧
  str_in "architecture used" repl = false ∧
  readme_body fr' (readme', pasted') repl = Ok (readme' +:+ repl, pasted').
Proof.
  intros Htable H1 H2 H3 H4 H5 repl.
  assert (Hnone : ∀ c s, Ascii.is_nat c = None → c ≠ "-"%char → c ≠ " "%char →
    str_in (String c s) (" architectures used. " +:+
       "See the list of [architectures](architectures.md)." +:+ nl) = false →
    str_in (String c s) repl = false).
  { intros c0 s Hc Hd Hs Hrest. unfold repl. by rewrite str_in_count_line. }
  split; [|split].
  - unfold readme_body. rewrite Htable. cbn [mbind result_bind].
    rewrite H1, H2, H3, H4, H5. unfold repl. cbn [nb_archi].
    by rewrite !str_app_assoc.
  - by apply Hnone.
  - rewrite readme_body_other by apply table_anchor_dash.
    unfold count_or_copy.
    rewrite (Hnone "p"%char), (Hnone "u"%char), (Hnone "t"%char),
      (Hnone "d"%char), (Hnone "a"%char); done.
Qed.

Lemma architecture_anchor_not_reproduced_witness :
  let repl := "- 35 architectures used. " +:+
              "See the list of [architectures](architectures.md)." +:+ nl in
  readme_body (Fragments "15" "40" "7" "9" "35" "") ("", false)
    ("- 30 architecture used." +:+ nl) = Ok (repl, false) ∧
  str_in "architecture used" repl = false ∧
  readme_body (Fragments "16" "41" "8" "10" "36" "") ("", false) repl
    = Ok (repl, false).
Proof.
  apply (architecture_anchor_not_reproduced 35 "15" "40" "7" "9" ""
           (Fragments "16" "41" "8" "10" "36" "")
           ("- 30 architecture used." +:+ nl) "" "" false false); reflexivity.
Defined.

(** Two runs in a row: the second one leaves the stale count in place. *)
Example architecture_count_goes_stale :
  rewrite_readme (Fragments "15" "40" "7" "9" "35" "")
    ("- 30 architecture used." +:+ nl) =
  Ok ("- 35 architectures used. See the list of [architectures](architectures.md)."
      +:+ nl) ∧
  rewrite_readme (Fragments "16" "41" "8" "10" "36" "")
    ("- 35 architectures used. See the list of [architectures](architectures.md)."
     +:+ nl) =
  Ok ("- 35 architectures used. See the list of [architectures](architectures.md)."
      +:+ nl) ∧
  rewrite_readme (Fragments "16" "41" "8" "10" "36" "")
    ("- 9 datasets used. See the list of [datasets](datasets.md)." +:+ nl) =
  Ok ("- 10 datasets used. See the list of [datasets](datasets.md)." +:+ nl).
Proof. by vm_compute. Qed.

(** C4 (as amended): [validate_field] accepts exactly the ten names task,
    dataset, architecture, author, dataaugmentation, link, title, year,
    journal and ENTRYTYPE, and every other string fails the assertion with a
    message that lists the valid names. *)
Theorem validate_field_whitelist (field_name : string) :
  (validate_field field_name = Ok () ↔
     field_name ∈ ["task"; "dataset"; "architecture"; "author";
                   "dataaugmentation"; "link"; "title"; "year"; "journal";
                   "ENTRYTYPE"]) ∧
  (field_name ∉ ["task"; "dataset"; "architecture"; "author";
                 "dataaugmentation"; "link"; "title"; "year"; "journal";
                 "ENTRYTYPE"] →
   validate_field field_name =
     Raise (AssertionError
       ("Invalid field provided: " +:+ field_name +:+
        ". Valid fields: [task, dataset, architecture, author, " +:+
        "dataaugmentation, link, title, year, journal, ENTRYTYPE]"))).
Proof.
  unfold validate_field. fold fields. split.
  - case_bool_decide; split; intros; done.
  - intros Hnot. rewrite bool_decide_eq_false_2 by done.
    by rewrite !str_app_assoc.
Qed.

(** The spec's spelling of the tenth name is rejected; the key that
    bibtexparser uses for the entry type is the one accepted. *)
Lemma validate_field_entryType_rejected :
  validate_field "entryType" ≠ Ok () ∧ validate_field "ENTRYTYPE" = Ok ().
Proof. split; [intros [=]|reflexivity]. Qed.

Lemma validate_field_whitelist_witness :
  validate_field "task" = Ok () ∧
  validate_field "code" =
    Raise (AssertionError
      ("Invalid field provided: code. Valid fields: [task, dataset, " +:+
       "architecture, author, dataaugmentation, link, title, year, journal, " +:+
       "ENTRYTYPE]")).
Proof.
  split.
  - apply (validate_field_whitelist "task"). by apply (bool_decide_unpack _).
  - apply (validate_field_whitelist "code"). by apply (bool_decide_eq_false_1 _).
Defined.

(** C5: the fragment is the rows, in order, of the records that have a
    title; a record without one contributes nothing; the code cell is decided
    by the substring tests "No", then "github", then the website fallback,
    and is "No " when the field is absent; and the three-record example
    renders as the specification gives it. *)
Theorem generate_list_articles_rows :
  (∀ bib, generate_list_articles bib = flat (omap article_row_spec bib)) ∧
  (∀ bib1 e bib2, e !! "title" = None →
     generate_list_articles (bib1 ++ e :: bib2) =
     generate_list_articles (bib1 ++ bib2)) ∧
  generate_list_articles
    [ {[ "title" := "A"; "link" := "u"; "code" := "No" ]};
      {[ "title" := "B"; "code" := "github.com/x" ]};
      {[ "title" := "C" ]} ]
  = "| [A](u) | No |" +:+ nl +:+
    "| B | [GitHub](github.com/x) |" +:+ nl +:+
    "| C | No |" +:+ nl.
Proof.
  assert (Hrows : ∀ bib,
    generate_list_articles bib = flat (omap article_row_spec bib)).
  { intros bib. unfold generate_list_articles. by rewrite fold_list_articles. }
  split; [done|]. split; [|by vm_compute].
  intros bib1 e bib2 He. rewrite !Hrows, !omap_app. simpl.
  unfold article_row_spec at 2. by rewrite He.
Qed.

Lemma generate_list_articles_rows_witness :
  generate_list_articles
    ([ {[ "title" := "A" ]} ] ++ {[ "link" := "u" ]} :: [ {[ "title" := "B" ]} ]) =
  generate_list_articles ([ {[ "title" := "A" ]} ] ++ [ {[ "title" := "B" ]} ]).
Proof.
  apply (proj1 (proj2 generate_list_articles_rows)
           [ {[ "title" := "A" ]} ] {[ "link" := "u" ]} [ {[ "title" := "B" ]} ]).
  reflexivity.
Defined.

(** C6: for a whitelisted field name [get_field] succeeds; the values it
    lists are exactly the pieces obtained by splitting each present value on
    " & " (the pieces glued back with " & " give the value again, so nothing
    is trimmed or case-folded, and no piece contains the separator); the
    count it prints as missing is the number of records without the field;
    and the listed values are strictly increasing, free of duplicates, and as
    many as the count it returns. *)
Theorem get_field_listing (bib : list dict) (field_name : string) (w : world) :
  field_name ∈ fields →
  ∃ values missing,
    get_field bib field_name w =
      (Ok (length values),
       World (<[field_name +:+ "s.md" :=
                  "# List of " +:+ field_name +:+ "s" +:+ nl +:+ nl +:+
                  "Please refer to the list of useful acronyms used in deep " +:+
                  "learning and music: [acronyms.md](acronyms.md)." +:+ nl +:+ nl +:+
                  flat ((λ field, "- " +:+ field +:+ nl) <$> values)]>
                (files w))
             (stdout w ++
              [str_of_nat missing +:+ " entries are missing the " +:+
                 field_name +:+ " field.";
               str_of_nat (length values) +:+ " unique " +:+ field_name +:+ ".";
               str_join " " ["List of " +:+ field_name +:+ "s written in";
                             field_name +:+ "s.md"]])
             (figures w)) ∧
    missing = length (filter (λ e, e !! field_name = None) bib) ∧
    StronglySorted str_lt values ∧
    NoDup values ∧
    (∀ x, x ∈ values ↔
          ∃ e value, e ∈ bib ∧ e !! field_name = Some value ∧
                     x ∈ str_split " & " value) ∧
    (∀ value, str_join " & " (str_split " & " value) = value ∧
              ∀ x, x ∈ str_split " & " value → str_in " & " x = false).
Proof.
  intros Hvalid.
  exists (sorted (set (field_pieces " & " field_name bib))),
         (length (filter (λ e, e !! field_name = None) bib)).
  split; [|split; [done|split; [|split; [|split]]]].
  - unfold get_field, validate_field.
    rewrite bool_decide_eq_true_2 by done.
    rewrite get_field_loop. run_M.
    by rewrite sorted_length, <- !List.app_assoc.
  - apply sorted_increasing.
  - apply sorted_NoDup.
  - intros x. by rewrite sorted_elem_of, elem_of_set, elem_of_field_pieces.
  - intros value. split.
    + by apply str_split_join.
    + intros x. by apply str_split_sep_free.
Qed.

Lemma get_field_listing_witness :
  let bib : list dict :=
    [ {[ "task" := "MGR & MIR" ]}; {[ "title" := "T" ]}; {[ "task" := "mgr & MGR" ]} ] in
  ∃ values missing,
    (get_field bib "task" (World ∅ [] ∅)).1 = Ok (length values) ∧
    missing = 1%nat ∧ StronglySorted str_lt values ∧ NoDup values.
Proof.
  intros bib.
  destruct (get_field_listing bib "task" (World ∅ [] ∅))
    as (values & missing & Hrun & Hmissing & Hsorted & Hnodup & _).
  - by apply (bool_decide_unpack _).
  - exists values, missing. rewrite Hrun. by repeat split.
Defined.

(** Values that differ only in case, or in surrounding blanks, stay distinct
    entries of the listing. *)
Example get_field_no_folding :
  let w := (get_field
              [ {[ "task" := "MGR &  MIR" ]}; {[ "title" := "T" ]};
                {[ "task" := "mgr & MGR & MIR" ]} ]
              "task" (World ∅ [] ∅)) in
  w.1 = Ok 4%nat ∧
  files w.2 !! "tasks.md" =
    Some ("# List of tasks" +:+ nl +:+ nl +:+
          "Please refer to the list of useful acronyms used in deep learning " +:+
          "and music: [acronyms.md](acronyms.md)." +:+ nl +:+ nl +:+
          "-  MIR" +:+ nl +:+ "- MGR" +:+ nl +:+ "- MIR" +:+ nl +:+ "- mgr" +:+ nl) ∧
  stdout w.2 = ["1 entries are missing the task field."; "4 unique task.";
                "List of tasks written in tasks.md"].
Proof. by vm_compute. Qed.

Example str_split_examples :
  str_split " & " "a &  b" = ["a"; " b"] ∧
  str_split " & " " & & " = [""; "& "] ∧
  str_split " & " "CNN" = ["CNN"] ∧
  str_split " and " "Alice Smith and Bob Lee" = ["Alice Smith"; "Bob Lee"] ∧
  str_split " & " "" = [""] ∧
  str_split " & " "a & " = ["a"; ""].
Proof. by vm_compute. Qed.



(** Without the folder fig/ the same run fails when the figure is saved,
    and prints nothing; a year with a digit count above the limit, or one
    behind a byte that is no blank for [int], is a [ValueError]. *)
Example articles_per_year_example :
  articles_per_year
    [ {[ "year" := "2015" ]}; {[ "year" := "2015" ]}; {[ "year" := "2017" ]} ]
    (World ∅ [] ∅) =
    (Raise (FileNotFoundError "fig/articles_per_year.png"), World ∅ [] ∅) ∧
  int_of_str (String "028" "2017") = None ∧
  int_of_str (" +2_017" +:+ nl) = Some 2017%Z ∧
  int_of_str "-0" = Some 0%Z ∧
  int_of_str "2__017" = None.
Proof. by vm_compute. Qed.

(** C8: with a record that lacks the author field [get_authors] raises
    [KeyError] for that key, before anything is printed or written; when
    every record has an author it returns the number of distinct authors
    and writes them, sorted, to authors.md. *)
Theorem get_authors_requires_author (bib : list dict) (w : world) :
  ((∃ e, e ∈ bib ∧ e !! "author" = None) →
   get_authors bib w = (Raise (KeyError "author"), w)) ∧
  ((∀ e, e ∈ bib → is_Some (e !! "author")) →
   ∃ authors,
     get_authors bib w =
       (Ok (length authors),
        World (<["authors.md" :=
                   "# List of authors" +:+ nl +:+ nl +:+
                   flat ((λ author, "- " +:+ author +:+ nl) <$> authors)]>
                 (files w))
              (stdout w ++
               [str_join " " ["There are"; str_of_nat (length authors);
                              "researchers working on DL4M."];
                "List of authors written in authors.md"])
              (figures w)) ∧
     StronglySorted str_lt authors ∧
     (∀ a, a ∈ authors ↔
           ∃ e value, e ∈ bib ∧ e !! "author" = Some value ∧
                      a ∈ str_split " and " value)).
Proof.
  split.
  - intros Hmiss. unfold get_authors, lift.
    unfold mbind at 1, M_bind. by rewrite get_authors_loop_missing.
  - intros Hall. exists (sorted (set (field_pieces " and " "author" bib))).
    split; [|split].
    + unfold get_authors, lift. unfold mbind at 1, M_bind.
      rewrite get_authors_loop_ok by done. run_M.
      by rewrite <- List.app_assoc.
    + apply sorted_increasing.
    + intros a. by rewrite sorted_elem_of, elem_of_set, elem_of_field_pieces.
Qed.

Lemma get_authors_requires_author_witness :
  let w := World ∅ [] ∅ in
  get_authors [ {[ "author" := "Alice Smith and Bob Lee" ]}; {[ "title" := "T" ]} ] w =
    (Raise (KeyError "author"), w) ∧
  ∃ authors,
    StronglySorted str_lt authors ∧
    ∀ a, a ∈ authors ↔
         ∃ e value,
           e ∈ [ ({[ "author" := "Alice Smith and Bob Lee and Alice Smith" ]} : dict) ] ∧
           e !! "author" = Some value ∧ a ∈ str_split " and " value.
Proof.
  intros w. split.
  - apply (proj1 (get_authors_requires_author _ w)).
    exists {[ "title" := "T" ]}. split; [|reflexivity].
    apply elem_of_cons. right. apply elem_of_cons. by left.
  - destruct (proj2 (get_authors_requires_author
        [ {[ "author" := "Alice Smith and Bob Lee and Alice Smith" ]} ] w))
      as (authors & _ & Hsorted & Hmem).
    + intros e ->%list_elem_of_singleton. by eexists.
    + by exists authors.
Defined.

(** The example of the specification: two records with the same three-name
    author string give two distinct authors. *)
Example get_authors_two :
  (get_authors
     [ {[ "author" := "Alice Smith and Bob Lee and Alice Smith" ]};
       {[ "author" := "Alice Smith and Bob Lee and Alice Smith" ]} ]
     (World ∅ [] ∅)).1 = Ok 2%nat.
Proof. by vm_compute. Qed.



(** * Further properties *)

(** ** The extractors *)

Lemma field_pieces_perm sep field (bib bib' : list dict) :
  bib ≡ₚ bib' → field_pieces sep field bib ≡ₚ field_pieces sep field bib'.
Proof. intros Hperm. unfold field_pieces. by rewrite Hperm. Qed.

Lemma field_values_perm sep field (bib bib' : list dict) :
  bib ≡ₚ bib' → field_values sep field bib = field_values sep field bib'.
Proof.
  intros Hperm. unfold field_values, set.
  by rewrite (field_pieces_perm sep field _ _ Hperm).
Qed.

Lemma get_authors_loop_cases (bib : list dict) acc :
  ((∀ e, e ∈ bib → is_Some (e !! "author")) ∧
   for_each get_authors_body bib acc =
     Ok (acc ++ field_pieces " and " "author" bib)) ∨
  ((∃ e, e ∈ bib ∧ e !! "author" = None) ∧
   for_each get_authors_body bib acc = Raise (KeyError "author")).
Proof.
  destruct (decide (Forall (λ e : dict, is_Some (e !! "author")) bib)) as [Hall|Hnot].
  - left. rewrite Forall_forall in Hall. split; [done|].
    by apply get_authors_loop_ok.
  - right. apply (not_Forall_Exists _), Exists_exists in Hnot as (e & He & Hnone).
    cbn in Hnone. assert (e !! "author" = None) as Hnone'.
    { destruct (e !! "author"); [|done]. destruct Hnone. by eexists. }
    split; [by exists e|]. apply get_authors_loop_missing. by exists e.
Qed.

Lemma field_values_nil sep field (bib : list dict) :
  length (field_values sep field bib) = 0%nat ↔ ∀ e, e ∈ bib → e !! field = None.
Proof.
  unfold field_values. rewrite sorted_length. split.
  - intros Hsize e He. destruct (e !! field) as [value|] eqn:Hv; [|done].
    apply size_empty_inv in Hsize.
    destruct (str_split sep value) as [|x xs] eqn:Hsplit.
    { unfold str_split in Hsplit. by apply split_go_nonempty in Hsplit. }
    assert (x ∈ set (field_pieces sep field bib)) as Hx.
    { apply elem_of_set, elem_of_field_pieces. exists e, value.
      rewrite Hsplit. repeat split; [done..|by left]. }
    rewrite Hsize in Hx. by apply not_elem_of_empty in Hx.
  - intros Hnone. apply size_empty_iff. intros x. split; [|by intros ?%not_elem_of_empty].
    intros (e & value & He & Hv & _)%elem_of_set%elem_of_field_pieces.
    rewrite (Hnone e He) in Hv. done.
Qed.

(** X1: with a name outside the whitelist [get_field] stops at the
    assertion: nothing is printed and no file is written. *)
Theorem get_field_invalid (bib : list dict) (field_name : string) (w : world) :
  field_name ∉ fields →
  get_field bib field_name w =
    (Raise (AssertionError
       ("Invalid field provided: " +:+ field_name +:+
        ". Valid fields: [task, dataset, architecture, author, " +:+
        "dataaugmentation, link, title, year, journal, ENTRYTYPE]")), w).
Proof.
  intros Hnot. unfold get_field, validate_field.
  rewrite bool_decide_eq_false_2 by done. run_M.
  by rewrite !str_app_assoc.
Qed.

Lemma get_field_invalid_witness :
  get_field [ {[ "code" := "No" ]} ] "code" (World ∅ [] ∅) =
    (Raise (AssertionError
       ("Invalid field provided: " +:+ "code" +:+
        ". Valid fields: [task, dataset, architecture, author, " +:+
        "dataaugmentation, link, title, year, journal, ENTRYTYPE]")),
     World ∅ [] ∅).
Proof.
  apply (get_field_invalid [ {[ "code" := "No" ]} ] "code" (World ∅ [] ∅)).
  by apply (bool_decide_eq_false_1 _).
Defined.

(** X2: the outcome of [get_field] (returned count, listing file, printed
    lines, or the assertion failure) does not depend on the order of the
    records. *)
Theorem get_field_permutation (bib bib' : list dict) (field_name : string)
    (w : world) :
  bib ≡ₚ bib' → get_field bib field_name w = get_field bib' field_name w.
Proof.
  intros Hperm. unfold get_field. rewrite !get_field_loop. cbn [app].
  assert (set (field_pieces " & " field_name bib) =
          set (field_pieces " & " field_name bib')) as ->.
  { unfold set. by rewrite (field_pieces_perm _ _ _ _ Hperm). }
  assert (length (filter (λ e : dict, e !! field_name = None) bib) =
          length (filter (λ e : dict, e !! field_name = None) bib')) as ->.
  { by rewrite Hperm. }
  done.
Qed.

Lemma get_field_permutation_witness :
  get_field [ {[ "task" := "MGR" ]}; {[ "task" := "AMT & MGR" ]} ] "task"
            (World ∅ [] ∅) =
  get_field [ {[ "task" := "AMT & MGR" ]}; {[ "task" := "MGR" ]} ] "task"
            (World ∅ [] ∅).
Proof.
  apply (get_field_permutation
           [ {[ "task" := "MGR" ]}; {[ "task" := "AMT & MGR" ]} ]
           [ {[ "task" := "AMT & MGR" ]}; {[ "task" := "MGR" ]} ]).
  apply perm_swap.
Defined.

(** X3: the outcome of [get_authors] (count, authors.md, printed lines, or
    the [KeyError]) does not depend on the order of the records. *)
Theorem get_authors_permutation (bib bib' : list dict) (w : world) :
  bib ≡ₚ bib' → get_authors bib w = get_authors bib' w.
Proof.
  intros Hperm. unfold get_authors, lift. unfold mbind at 1 3, M_bind.
  destruct (get_authors_loop_cases bib []) as [[Hall ->]|[(e & He & Hnone) ->]].
  - rewrite get_authors_loop_ok
      by (intros e He; apply Hall; by rewrite Hperm).
    cbn [app]. fold (field_values " and " "author" bib).
    fold (field_values " and " "author" bib').
    by rewrite (field_values_perm _ _ _ _ Hperm).
  - rewrite get_authors_loop_missing; [done|].
    exists e. by rewrite <- Hperm.
Qed.

Lemma get_authors_permutation_witness :
  get_authors [ {[ "author" := "B and A" ]}; {[ "author" := "C" ]} ] (World ∅ [] ∅) =
  get_authors [ {[ "author" := "C" ]}; {[ "author" := "B and A" ]} ] (World ∅ [] ∅).
Proof.
  apply (get_authors_permutation
           [ {[ "author" := "B and A" ]}; {[ "author" := "C" ]} ]
           [ {[ "author" := "C" ]}; {[ "author" := "B and A" ]} ]).
  apply perm_swap.
Defined.

(** X4: for a whitelisted field, [get_field] returns 0 exactly when no
    record has the field; a record with the field always contributes at
    least one value, possibly the empty string. *)
Theorem get_field_zero (bib : list dict) (field_name : string) (w : world) :
  field_name ∈ fields →
  ((get_field bib field_name w).1 = Ok 0%nat ↔
   ∀ e, e ∈ bib → e !! field_name = None).
Proof.
  intros Hvalid. rewrite get_field_run by done. cbn [fst].
  rewrite <- field_values_nil. split; [by intros [=]|by intros ->].
Qed.

Lemma get_field_zero_witness :
  (get_field [ {[ "title" := "T" ]} ] "task" (World ∅ [] ∅)).1 = Ok 0%nat ↔
  ∀ e : dict, e ∈ [ ({[ "title" := "T" ]} : dict) ] → e !! "task" = None.
Proof.
  apply (get_field_zero [ {[ "title" := "T" ]} ] "task" (World ∅ [] ∅)).
  by apply (bool_decide_unpack _).
Defined.

(** A record whose field is the empty string is listed, as an empty bullet. *)
Example get_field_empty_value :
  let r := get_field [ {[ "task" := "" ]} ] "task" (World ∅ [] ∅) in
  r.1 = Ok 1%nat ∧
  files r.2 !! "tasks.md" =
    Some ("# List of tasks" +:+ nl +:+ nl +:+
          "Please refer to the list of useful acronyms used in deep learning " +:+
          "and music: [acronyms.md](acronyms.md)." +:+ nl +:+ nl +:+ "- " +:+ nl).
Proof. by vm_compute. Qed.

(** ** The article table and the README *)

Lemma str_app_eq_nil (s t : string) : s +:+ t = "" ↔ s = "" ∧ t = "".
Proof.
  split; [|by intros [-> ->]].
  destruct s as [|c s]; [by intros H|]. by rewrite str_app_cons.
Qed.

Lemma flat_eq_nil (xs : list string) : flat xs = "" ↔ Forall (λ x, x = "") xs.
Proof.
  induction xs as [|x xs IH].
  - split; [constructor|done].
  - rewrite flat_cons, str_app_eq_nil, IH, Forall_cons. done.
Qed.

Lemma article_row_spec_nonempty (e : dict) row :
  article_row_spec e = Some row → row ≠ "".
Proof.
  unfold article_row_spec. destruct (e !! "title") as [title|]; [|done].
  by intros [= <-].
Qed.

Lemma article_row_spec_title (e : dict) :
  article_row_spec e = None ↔ e !! "title" = None.
Proof. unfold article_row_spec. by destruct (e !! "title"). Qed.

(** X5: the fragment of a bibliography put together from two parts is the
    fragment of the first followed by the fragment of the second, and the
    fragment is empty exactly when no record has a title. *)
Theorem generate_list_articles_app (bib1 bib2 : list dict) :
  generate_list_articles (bib1 ++ bib2) =
    generate_list_articles bib1 +:+ generate_list_articles bib2 ∧
  (generate_list_articles bib1 = "" ↔ ∀ e, e ∈ bib1 → e !! "title" = None).
Proof.
  unfold generate_list_articles. split.
  - rewrite fold_left_app, (fold_list_articles bib2), (fold_list_articles bib2 "").
    done.
  - rewrite fold_list_articles, str_app_nil_l, flat_eq_nil, Forall_forall. split.
    + intros Hrows e He. apply article_row_spec_title.
      destruct (article_row_spec e) as [row|] eqn:Hrow; [|done].
      assert (row ∈ omap article_row_spec bib1) as Hin
        by (apply list_elem_of_omap; eauto).
      apply Hrows in Hin. by apply article_row_spec_nonempty in Hrow.
    + intros Hnone row (e & He & Hrow)%list_elem_of_omap.
      apply Hnone, article_row_spec_title in He. congruence.
Qed.

(** X6: the row of a record with a link passes the table test of the README
    rewrite; the row of a record without a link passes it exactly when the
    title starts with a character other than a space, so a row with an empty
    title, or a title that starts with a space, is not a table line. *)
Theorem rendered_row_table_anchor (e : dict) (title : string) :
  e !! "title" = Some title →
  (is_Some (e !! "link") → table_anchor (generate_list_articles [e]) = Ok true) ∧
  (e !! "link" = None →
   (table_anchor (generate_list_articles [e]) = Ok true ↔
    ∃ c rest, title = String c rest ∧ c ≠ " "%char)).
Proof.
  intros Htitle. unfold generate_list_articles. cbn [fold_left].
  rewrite list_articles_body_row, str_app_nil_l. unfold article_row_spec.
  rewrite Htitle. cbn [mbind option_bind default]. split.
  - intros [link ->]. apply table_anchor_true. split; [reflexivity|].
    exists "["%char. split; [reflexivity|done].
  - intros ->. rewrite table_anchor_true. destruct title as [|c rest].
    + split.
      * intros [_ (c & Hc & Hne)]. injection Hc as <-. done.
      * by intros (? & ? & [=] & _).
    + split.
      * intros [_ (c' & Hc & Hne)]. injection Hc as <-. eauto.
      * intros (c' & rest' & [= <- <-] & Hne). split; [reflexivity|]. eauto.
Qed.

Lemma rendered_row_table_anchor_witness :
  table_anchor (generate_list_articles [ {[ "title" := "A"; "link" := "u" ]} ])
    = Ok true ∧
  (table_anchor (generate_list_articles [ {[ "title" := " A" ]} ]) = Ok true ↔
   ∃ c rest, " A" = String c rest ∧ c ≠ " "%char).
Proof.
  split.
  - destruct (rendered_row_table_anchor {[ "title" := "A"; "link" := "u" ]} "A")
      as [Hlink _]; [reflexivity|].
    apply Hlink. by eexists.
  - destruct (rendered_row_table_anchor {[ "title" := " A" ]} " A")
      as [_ Hnolink]; [reflexivity|].
    apply Hnolink. reflexivity.
Defined.

(** X7: the README rewrite fails on one kind of document only, the one whose
    last line is "| " without a newline, and then with [IndexError]. *)
Theorem rewrite_readme_raises (fr : fragments) (doc : string) (e : exn) :
  rewrite_readme fr doc = Raise e ↔
  last (file_lines doc) = Some "| " ∧ e = IndexError.
Proof.
  unfold rewrite_readme, rewrite_lines. split.
  - intros Hraise.
    destruct (decide (last (file_lines doc) = Some "| ")) as [Hlast|Hlast].
    + rewrite for_each_readme_raises in Hraise by done.
      by injection Hraise as <-.
    + apply file_lines_no_raise in Hlast.
      by rewrite for_each_pieces in Hraise.
  - intros [Hlast ->]. by rewrite for_each_readme_raises.
Qed.

(** X8: a README none of whose lines matches an anchor is rewritten to the
    text it is read as: itself with every carriage return, or carriage
    return and line feed, turned into a line feed; a README without a
    carriage return is rewritten to itself, byte for byte. *)
Theorem rewrite_readme_identity (fr : fragments) (doc : string) :
  (∀ line, line ∈ file_lines doc →
     table_anchor line = Ok false ∧
     str_in "papers referenced" line = false ∧
     str_in "unique researchers" line = false ∧
     str_in "tasks investigated" line = false ∧
     str_in "datasets used" line = false ∧
     str_in "architecture used" line = false) →
  rewrite_readme fr doc = Ok (universal_newlines doc) ∧
  (no_cr doc → rewrite_readme fr doc = Ok doc).
Proof.
  intros Hlines.
  assert (Hrun : rewrite_readme fr doc = Ok (universal_newlines doc)).
  { unfold rewrite_readme.
    rewrite rewrite_lines_pieces.
    2:{ apply Forall_forall. intros line [Hl _]%Hlines ->. done. }
    rewrite pieces_no_anchor.
    2:{ apply Forall_forall. intros line [Hl _]%Hlines. by rewrite Hl. }
    f_equal. rewrite <- (file_lines_flat doc). f_equal.
    rewrite <- (list_fmap_id (file_lines doc)) at 2.
    apply Forall_fmap_ext, Forall_forall.
    intros line (_ & H1 & H2 & H3 & H4 & H5)%Hlines.
    unfold count_or_copy. by rewrite H1, H2, H3, H4, H5. }
  split; [done|]. intros Hcr. by rewrite Hrun, universal_newlines_id.
Qed.

Lemma rewrite_readme_identity_witness :
  rewrite_readme (Fragments "15" "40" "7" "9" "5" "| A | No |")
    ("# DL4M" +:+ String CR nl +:+ "|  indented | cell |" +:+ nl +:+ "The end.") =
  Ok ("# DL4M" +:+ nl +:+ "|  indented | cell |" +:+ nl +:+ "The end.").
Proof.
  apply (rewrite_readme_identity (Fragments "15" "40" "7" "9" "5" "| A | No |")
           ("# DL4M" +:+ String CR nl +:+ "|  indented | cell |" +:+ nl +:+
            "The end.")).
  intros line Hline. vm_compute in Hline.
  repeat (apply elem_of_cons in Hline as [->|Hline]; [by vm_compute|]).
  by apply elem_of_nil in Hline.
Defined.

(** ** The whole of [generate_summary_table] *)

(** Up to the README every run with authors everywhere does the same; what
    follows depends on the README alone. *)
Lemma generate_summary_table_cases (bib : list dict) (w : world) :
  (∀ e, e ∈ bib → is_Some (e !! "author")) →
  generate_summary_table bib w =
    let w1 := World (write_listings bib (files w))
                    (stdout w ++ listing_stdout bib) (figures w) in
    match files w !! "README.md" with
    | None => (Raise (FileNotFoundError "README.md"), w1)
    | Some doc =>
        match rewrite_readme (fragments_of bib) doc with
        | Ok out =>
            (Ok (),
             World (<["README.md" := out]> (write_listings bib (files w)))
                   (stdout w ++ listing_stdout bib ++ ["New ReadMe generated"])
                   (figures w))
        | Raise e => (Raise e, w1)
        end
    end.
Proof.
  intros Hall. unfold generate_summary_table, get_nb_articles.
  unfold mbind at 1, M_bind. unfold mbind at 1, M_bind.
  unfold print at 1. cbn [files stdout figures].
  unfold mret at 1, M_ret.
  unfold mbind at 1, M_bind. rewrite get_authors_run by done.
  unfold mbind at 1, M_bind.
  rewrite get_field_run by by apply (bool_decide_unpack _).
  unfold mbind at 1, M_bind.
  rewrite get_field_run by by apply (bool_decide_unpack _).
  unfold mbind at 1, M_bind.
  rewrite get_field_run by by apply (bool_decide_unpack _).
  unfold mbind at 1, M_bind. unfold read_file at 1. cbn [files].
  rewrite !lookup_insert_ne by done.
  unfold listing_stdout, field_stdout, write_listings, field_md, authors_md.
  destruct (files w !! "README.md") as [doc|].
  - unfold mbind at 1, M_bind, lift. fold (fragments_of bib).
    destruct (rewrite_readme (fragments_of bib) doc) as [out|e].
    + run_M. cbn zeta. by rewrite <- !List.app_assoc.
    + run_M. cbn zeta. by rewrite <- !List.app_assoc.
  - run_M. cbn zeta. by rewrite <- !List.app_assoc.
Qed.

(** X9: when every record has an author and the README can be rewritten,
    [generate_summary_table] succeeds; it writes README.md, authors.md,
    tasks.md, datasets.md and architectures.md and leaves every other file
    and every figure as it was; the README it writes is the rewrite of the
    old one with the counts and the table computed from the bibliography. *)
Theorem generate_summary_table_effect (bib : list dict) (w : world)
    (doc out : string) :
  (∀ e, e ∈ bib → is_Some (e !! "author")) →
  files w !! "README.md" = Some doc →
  rewrite_readme
    (Fragments (str_of_nat (length bib))
               (str_of_nat (length (field_values " and " "author" bib)))
               (str_of_nat (length (field_values " & " "task" bib)))
               (str_of_nat (length (field_values " & " "dataset" bib)))
               (str_of_nat (length (field_values " & " "architecture" bib)))
               (generate_list_articles bib)) doc = Ok out →
  ∃ w',
    generate_summary_table bib w = (Ok (), w') ∧
    files w' !! "README.md" = Some out ∧
    files w' !! "authors.md" = Some (authors_md bib) ∧
    files w' !! "tasks.md" = Some (field_md "task" bib) ∧
    files w' !! "datasets.md" = Some (field_md "dataset" bib) ∧
    files w' !! "architectures.md" = Some (field_md "architecture" bib) ∧
    (∀ path, path ∉ ["README.md"; "authors.md"; "tasks.md"; "datasets.md";
                     "architectures.md"] →
             files w' !! path = files w !! path) ∧
    figures w' = figures w.
Proof.
  intros Hall Hdoc Hout. rewrite generate_summary_table_cases by done.
  rewrite Hdoc. fold (fragments_of bib) in Hout. rewrite Hout. cbn zeta.
  eexists. split; [reflexivity|]. cbn [files figures]. unfold write_listings.
  split; [by rewrite lookup_insert_eq|].
  split; [by rewrite !lookup_insert_ne, lookup_insert_eq by done|].
  split; [by rewrite !lookup_insert_ne, lookup_insert_eq by done|].
  split; [by rewrite !lookup_insert_ne, lookup_insert_eq by done|].
  split; [by rewrite !lookup_insert_ne, lookup_insert_eq by done|].
  split; [|done].
  intros path Hpath. rewrite !not_elem_of_cons in Hpath.
  destruct Hpath as (? & ? & ? & ? & ? & _).
  by rewrite !lookup_insert_ne by done.
Qed.

Lemma generate_summary_table_effect_witness :
  ∃ w',
    generate_summary_table [ {[ "title" := "A"; "author" := "X and Y" ]} ]
      (World {[ "README.md" := "- 0 papers referenced." +:+ nl;
                "notes.txt" := "keep" ]} [] ∅) = (Ok (), w') ∧
    files w' !! "README.md" =
      Some ("- 1 papers referenced. See the details in [dl4m.bib](dl4m.bib)." +:+ nl) ∧
    files w' !! "notes.txt" = Some "keep".
Proof.
  destruct (generate_summary_table_effect
              [ {[ "title" := "A"; "author" := "X and Y" ]} ]
              (World {[ "README.md" := "- 0 papers referenced." +:+ nl;
                        "notes.txt" := "keep" ]} [] ∅)
              ("- 0 papers referenced." +:+ nl)
              ("- 1 papers referenced. See the details in [dl4m.bib](dl4m.bib)."
               +:+ nl))
    as (w' & Hrun & Hreadme & _ & _ & _ & _ & Hother & _).
  - intros e ->%list_elem_of_singleton. by eexists.
  - reflexivity.
  - by vm_compute.
  - exists w'. split; [done|]. split; [done|].
    rewrite Hother; [reflexivity|]. by apply (bool_decide_eq_false_1 _).
Defined.

(** X10: a record without an author stops [generate_summary_table] with
    [KeyError] right after the article count is printed: no listing is
    written and the README is not touched. *)
Theorem generate_summary_table_missing_author (bib : list dict) (w : world) :
  (∃ e, e ∈ bib ∧ e !! "author" = None) →
  generate_summary_table bib w =
    (Raise (KeyError "author"),
     World (files w)
           (stdout w ++
            [str_join " " ["There are"; str_of_nat (length bib);
                           "articles referenced."]])
           (figures w)).
Proof.
  intros Hmiss. unfold generate_summary_table, get_nb_articles.
  unfold mbind at 1, M_bind. unfold mbind at 1, M_bind.
  unfold print at 1. cbn [files stdout figures].
  unfold mret at 1, M_ret.
  unfold mbind at 1, M_bind. unfold get_authors at 1, lift.
  unfold mbind at 1, M_bind. by rewrite get_authors_loop_missing.
Qed.

Lemma generate_summary_table_missing_author_witness :
  ∃ w',
    generate_summary_table [ {[ "title" := "A" ]} ]
      (World {[ "README.md" := "x" ]} [] ∅) = (Raise (KeyError "author"), w') ∧
    files w' = {[ "README.md" := "x" ]}.
Proof.
  eexists. split.
  - apply (generate_summary_table_missing_author [ {[ "title" := "A" ]} ]
             (World {[ "README.md" := "x" ]} [] ∅)).
    exists {[ "title" := "A" ]}. split; [by left|reflexivity].
  - reflexivity.
Defined.

(** X11: without a README.md [generate_summary_table] fails with
    [FileNotFoundError], but only after the four listings have been written:
    the run is not all-or-nothing. *)
Theorem generate_summary_table_no_readme (bib : list dict) (w : world) :
  (∀ e, e ∈ bib → is_Some (e !! "author")) →
  files w !! "README.md" = None →
  ∃ w',
    generate_summary_table bib w = (Raise (FileNotFoundError "README.md"), w') ∧
    files w' !! "README.md" = None ∧
    files w' !! "authors.md" = Some (authors_md bib) ∧
    files w' !! "tasks.md" = Some (field_md "task" bib) ∧
    files w' !! "datasets.md" = Some (field_md "dataset" bib) ∧
    files w' !! "architectures.md" = Some (field_md "architecture" bib).
Proof.
  intros Hall Hnone. rewrite generate_summary_table_cases by done.
  rewrite Hnone. cbn zeta. eexists. split; [reflexivity|].
  cbn [files]. unfold write_listings.
  split; [by rewrite !lookup_insert_ne by done|].
  split; [by rewrite !lookup_insert_ne, lookup_insert_eq by done|].
  split; [by rewrite !lookup_insert_ne, lookup_insert_eq by done|].
  split; [by rewrite !lookup_insert_ne, lookup_insert_eq by done|].
  by rewrite lookup_insert_eq.
Qed.

Lemma generate_summary_table_no_readme_witness :
  ∃ w',
    generate_summary_table [ {[ "author" := "X" ]} ] (World ∅ [] ∅) =
      (Raise (FileNotFoundError "README.md"), w') ∧
    files w' !! "authors.md" = Some (authors_md [ {[ "author" := "X" ]} ]).
Proof.
  destruct (generate_summary_table_no_readme [ {[ "author" := "X" ]} ] (World ∅ [] ∅))
    as (w' & Hrun & _ & Hauthors & _).
  - intros e ->%list_elem_of_singleton. by eexists.
  - reflexivity.
  - exists w'. split; [exact Hrun|exact Hauthors].
Defined.

(** X12: a README.md whose last line is "| " without a newline makes
    [generate_summary_table] fail with [IndexError]; the README keeps its
    old content, the listings have been written. *)
Theorem generate_summary_table_index_error (bib : list dict) (w : world)
    (doc : string) :
  (∀ e, e ∈ bib → is_Some (e !! "author")) →
  files w !! "README.md" = Some doc →
  last (file_lines doc) = Some "| " →
  ∃ w',
    generate_summary_table bib w = (Raise IndexError, w') ∧
    files w' !! "README.md" = Some doc ∧
    files w' !! "authors.md" = Some (authors_md bib).
Proof.
  intros Hall Hdoc Hlast. rewrite generate_summary_table_cases by done.
  rewrite Hdoc. unfold rewrite_readme, rewrite_lines.
  rewrite for_each_readme_raises by done. cbn [mbind result_bind]. cbn zeta.
  eexists. split; [reflexivity|]. cbn [files]. unfold write_listings.
  split; [by rewrite !lookup_insert_ne by done|].
  by rewrite !lookup_insert_ne, lookup_insert_eq by done.
Qed.

Lemma generate_summary_table_index_error_witness :
  ∃ w',
    generate_summary_table [ {[ "author" := "X" ]} ]
      (World {[ "README.md" := "# DL4M" +:+ nl +:+ "| " ]} [] ∅) =
      (Raise IndexError, w') ∧
    files w' !! "README.md" = Some ("# DL4M" +:+ nl +:+ "| ").
Proof.
  destruct (generate_summary_table_index_error [ {[ "author" := "X" ]} ]
              (World {[ "README.md" := "# DL4M" +:+ nl +:+ "| " ]} [] ∅)
              ("# DL4M" +:+ nl +:+ "| "))
    as (w' & Hrun & Hreadme & _).
  - intros e ->%list_elem_of_singleton. by eexists.
  - reflexivity.
  - reflexivity.
  - exists w'. split; [exact Hrun|exact Hreadme].
Defined.

(** ** The year histogram *)

Lemma length_filter_split (P Q R : Z → Prop) `{∀ x, Decision (P x)}
    `{∀ x, Decision (Q x)} `{∀ x, Decision (R x)} (xs : list Z) :
  (∀ x, R x ↔ P x ∨ Q x) → (∀ x, P x → Q x → False) →
  (length (filter P xs) + length (filter Q xs))%nat = length (filter R xs).
Proof.
  intros HR Hdisj. induction xs as [|a xs IH]; [done|].
  rewrite !filter_cons. pose proof (HR a). pose proof (Hdisj a).
  destruct (decide (P a)), (decide (Q a)), (decide (R a)); cbn; try tauto; lia.
Qed.

Lemma length_filter_all (P : Z → Prop) `{∀ x, Decision (P x)} (xs : list Z) :
  (∀ x, x ∈ xs → P x) → length (filter P xs) = length xs.
Proof.
  induction xs as [|a xs IH]; intros Hall; [done|].
  rewrite filter_cons, decide_True by (apply Hall; by left).
  cbn. rewrite IH; [done|]. intros x Hx. apply Hall. by right.
Qed.

Lemma np_histogram_unit_total (xs : list Z) (n : nat) (lo : Z) :
  sum_list (np_histogram xs (arange_go lo (S (S n)))) =
  length (filter (λ x, lo ≤ x ≤ lo + Z.of_nat n + 1)%Z xs).
Proof.
  revert lo. induction n as [|n IH]; intros lo.
  - cbn. rewrite Nat.add_0_r. apply length_filter_ext. intros x _. lia.
  - change (arange_go lo (S (S (S n))))
      with (lo :: (lo + 1)%Z :: arange_go (lo + 1 + 1) (S n)).
    change (arange_go (lo + 1 + 1) (S n))
      with ((lo + 1 + 1)%Z :: arange_go (lo + 1 + 1 + 1) n).
    rewrite np_histogram_cons.
    change ((lo + 1)%Z :: (lo + 1 + 1)%Z :: arange_go (lo + 1 + 1 + 1) n)
      with (arange_go (lo + 1) (S (S n))).
    cbn [sum_list sum_list_with]. rewrite IH.
    apply length_filter_split; intros x; lia.
Qed.




(** X14: when every record has a year that reads as an integer, the years
    lie in the range in which float64 holds every integer, and the folder
    fig/ exists, the counts drawn add up to the number of records: every
    record falls in exactly one bin. *)
Theorem articles_per_year_counts_total (bib : list dict) (years : list Z)
    (w : world) (figs : gmap string (list Z * list nat)) :
  Forall2 (λ (e : dict) y, ∃ s, e !! "year" = Some s ∧ int_of_str s = Some y)
          bib years →
  years ≠ [] →
  (∀ y, y ∈ years → (- 2 ^ 53 ≤ y ≤ 2 ^ 53 - 2)%Z) →
  figures w = Folder figs →
  ∃ edges counts,
    articles_per_year bib w =
      (Ok (),
       World (files w)
             (stdout w ++
              [str_join " " ["Fig. with number of articles per year saved in";
                             "fig/articles_per_year.png"]])
             (Folder (<["fig/articles_per_year.png" := (edges, counts)]> figs))) ∧
    sum_list counts = length bib.
Proof.
  intros Hyears Hne _ Hfigs.
  destruct years as [|y0 rest]; [done|].
  destruct (foldl_min_spec y0 rest) as [_ Hlo].
  destruct (foldl_max_spec y0 rest) as [_ Hhi].
  set (lo := foldl Z.min y0 rest) in *. set (hi := foldl Z.max y0 rest) in *.
  assert (Hlohi : (lo ≤ hi)%Z).
  { pose proof (Hlo y0 ltac:(by left)). pose proof (Hhi y0 ltac:(by left)). lia. }
  exists (np_arange lo (hi + 2)), (np_histogram (y0 :: rest) (np_arange lo (hi + 2))).
  split.
  - unfold articles_per_year, lift. unfold mbind at 1, M_bind.
    rewrite (articles_per_year_loop _ _ _ Hyears). cbn [app py_min py_max].
    fold lo hi. unfold hist_savefig. run_M. by rewrite Hfigs.
  - assert (np_arange lo (hi + 2) = arange_go lo (S (S (Z.to_nat (hi - lo))))) as ->.
    { unfold np_arange. f_equal. lia. }
    rewrite np_histogram_unit_total, (Forall2_length _ _ _ Hyears).
    apply length_filter_all.
    intros x Hx. specialize (Hlo x Hx). specialize (Hhi x Hx). lia.
Qed.

Lemma articles_per_year_counts_total_witness :
  ∃ edges counts,
    articles_per_year
      [ {[ "year" := "2015" ]}; {[ "year" := "2017" ]}; {[ "year" := "2015" ]} ]
      (World ∅ [] (Folder ∅)) =
      (Ok (),
       World ∅
             ([] ++
              [str_join " " ["Fig. with number of articles per year saved in";
                             "fig/articles_per_year.png"]])
             (Folder (<["fig/articles_per_year.png" := (edges, counts)]> ∅))) ∧
    sum_list counts = 3%nat.
Proof.
  apply (articles_per_year_counts_total
           [ {[ "year" := "2015" ]}; {[ "year" := "2017" ]}; {[ "year" := "2015" ]} ]
           [2015; 2017; 2015]%Z (World ∅ [] (Folder ∅)) ∅).
  - repeat constructor; eexists; split; reflexivity.
  - discriminate.
  - intros y Hy.
    repeat (apply elem_of_cons in Hy as [->|Hy]; [lia|]).
    by apply elem_of_nil in Hy.
  - reflexivity.
Defined.

(** ** The loader and [main] *)

Section pipeline.
Variable bib_database : Type.
Variable entries : bib_database → list dict.
Variable loads : string → result bib_database.
Variable writer_write : bib_database → string.

(** X15: [load_bib] touches the file only after a successful first parse:
    a missing file or a parse error leaves everything as it was; once the
    first parse has succeeded the file holds the writer's output, whether
    the second parse succeeds (its entries are returned) or fails. *)
Theorem load_bib_outcomes (filen : string) (w : world) :
  (files w !! filen = None →
   load_bib bib_database entries loads writer_write filen w =
     (Raise (FileNotFoundError filen), w)) ∧
  (∀ x e, files w !! filen = Some x → loads x = Raise e →
     load_bib bib_database entries loads writer_write filen w = (Raise e, w)) ∧
  (∀ x db e, files w !! filen = Some x → loads x = Ok db →
     loads (writer_write db) = Raise e →
     load_bib bib_database entries loads writer_write filen w =
       (Raise e,
        World (<[filen := writer_write db]> (files w)) (stdout w) (figures w))) ∧
  (∀ x db db', files w !! filen = Some x → loads x = Ok db →
     loads (writer_write db) = Ok db' →
     load_bib bib_database entries loads writer_write filen w =
       (Ok (entries db'),
        World (<[filen := writer_write db]> (files w)) (stdout w) (figures w))).
Proof.
  unfold load_bib, read_bib, write_bib, read_file. repeat split.
  - intros Hx. run_M. by rewrite Hx.
  - intros x e Hx He. run_M. by rewrite Hx, He.
  - intros x db e Hx Hdb He. run_M. rewrite Hx, Hdb. cbn [files].
    by rewrite lookup_insert_eq, He.
  - intros x db db' Hx Hdb Hdb'. run_M. rewrite Hx, Hdb. cbn [files].
    by rewrite lookup_insert_eq, Hdb'.
Qed.

(** X16: on a bibliography file without entries [main] rewrites the README
    (with zero counts and an empty table) and then fails with [ValueError]
    in the histogram step, which has no year to take a minimum of; no
    figure is saved. *)
Theorem main_empty_bibliography (filen : string) (w : world) (x : string)
    (db db' : bib_database) (doc out : string) :
  files w !! filen = Some x →
  loads x = Ok db →
  loads (writer_write db) = Ok db' →
  entries db' = [] →
  <[filen := writer_write db]> (files w) !! "README.md" = Some doc →
  rewrite_readme (Fragments "0" "0" "0" "0" "0" "") doc = Ok out →
  ∃ w',
    main bib_database entries loads writer_write filen w = (Raise ValueError, w') ∧
    files w' !! "README.md" = Some out ∧
    figures w' = figures w.
Proof.
  intros Hx Hdb Hdb' Hnil Hdoc Hout. unfold main.
  unfold mbind at 1, M_bind.
  rewrite (load_bib_persisted _ entries loads writer_write filen w x db db')
    by done.
  rewrite Hnil. unfold mbind at 1, M_bind.
  rewrite generate_summary_table_cases by (intros e []%elem_of_nil).
  cbn [files]. rewrite Hdoc.
  change (fragments_of []) with (Fragments "0" "0" "0" "0" "0" "").
  rewrite Hout. cbn zeta.
  eexists. split; [reflexivity|]. cbn [files figures]. split; [|done].
  by rewrite lookup_insert_eq.
Qed.
End pipeline.

Lemma load_bib_outcomes_witness :
  ∃ w1 w2,
    load_bib (list dict) id (λ s, if decide (s = "") then Raise ValueError else Ok [])
             (λ _, "") "dl4m.bib" (World {[ "dl4m.bib" := "@article{a}" ]} [] ∅) =
      (Raise ValueError, w1) ∧
    files w1 !! "dl4m.bib" = Some "" ∧
    load_bib (list dict) id (λ s, if decide (s = "") then Raise ValueError else Ok [])
             (λ _, "") "dl4m.bib" (World ∅ [] ∅) =
      (Raise (FileNotFoundError "dl4m.bib"), w2) ∧
    files w2 = ∅.
Proof.
  pose proof (load_bib_outcomes (list dict) id
                (λ s, if decide (s = "") then Raise ValueError else Ok [])
                (λ _, "") "dl4m.bib") as H.
  eexists. eexists. split; [|split; [|split]].
  - apply (proj1 (proj2 (proj2 (H (World {[ "dl4m.bib" := "@article{a}" ]} [] ∅))))
             "@article{a}" [] ValueError); reflexivity.
  - reflexivity.
  - apply (proj1 (H (World ∅ [] ∅))). reflexivity.
  - reflexivity.
Defined.

Lemma main_empty_bibliography_witness :
  ∃ w',
    main (list dict) id (λ _, Ok []) (λ _, "") "dl4m.bib"
         (World {[ "dl4m.bib" := "";
                   "README.md" := "- 3 papers referenced." +:+ nl ]} [] ∅) =
      (Raise ValueError, w') ∧
    files w' !! "README.md" =
      Some ("- 0 papers referenced. See the details in [dl4m.bib](dl4m.bib)." +:+ nl) ∧
    figures w' = ∅.
Proof.
  apply (main_empty_bibliography (list dict) id (λ _, Ok []) (λ _, "") "dl4m.bib"
           (World {[ "dl4m.bib" := "";
                     "README.md" := "- 3 papers referenced." +:+ nl ]} [] ∅)
           "" [] [] ("- 3 papers referenced." +:+ nl)); reflexivity.
Defined.

(** ** Running the README rewrite twice *)

Lemma no_lf_cons c x : no_lf (String c x) ↔ c ≠ LF ∧ no_lf x.
Proof. unfold no_lf. cbn. by rewrite Forall_cons. Qed.

Lemma no_lf_app x y : no_lf (x +:+ y) ↔ no_lf x ∧ no_lf y.
Proof. unfold no_lf. by rewrite list_ascii_app, Forall_app. Qed.

Lemma no_cr_app x y : no_cr (x +:+ y) ↔ no_cr x ∧ no_cr y.
Proof. unfold no_cr. by rewrite list_ascii_app, Forall_app. Qed.

Lemma no_lf_str_of_nat n : no_lf (str_of_nat n).
Proof.
  unfold no_lf. eapply Forall_impl; [apply str_of_nat_digits|].
  intros c [k Hk] ->. done.
Qed.

Lemma no_cr_str_of_nat n : no_cr (str_of_nat n).
Proof.
  unfold no_cr. eapply Forall_impl; [apply str_of_nat_digits|].
  intros c [k Hk] ->. done.
Qed.

Lemma split_lines_unterminated x : no_lf x → x ≠ "" → split_lines x = [x].
Proof.
  induction x as [|c x IH]; [done|]. intros [Hc Hx]%no_lf_cons _.
  cbn [split_lines]. destruct (Ascii.eqb_spec c LF) as [->|_]; [done|].
  destruct x as [|d x]; [done|]. by rewrite IH.
Qed.

Lemma split_lines_terminated_app x rest :
  no_lf x → split_lines ((x +:+ nl) +:+ rest) = (x +:+ nl) :: split_lines rest.
Proof.
  induction x as [|c x IH]; [done|]. intros [Hc Hx]%no_lf_cons.
  rewrite !str_app_cons. cbn [split_lines].
  destruct (Ascii.eqb_spec c LF) as [->|_]; [done|]. by rewrite IH.
Qed.

Lemma split_lines_Lines s : no_cr s → Lines (split_lines s).
Proof.
  induction s as [|c s IH]; [constructor|]. intros [Hc Hs]%no_cr_cons.
  specialize (IH Hs). cbn [split_lines].
  destruct (Ascii.eqb_spec c LF) as [->|Hlf].
  - change (String LF "") with ("" +:+ nl). apply Lines_cons; [constructor..|done].
  - destruct (split_lines s) as [|l ls].
    + apply Lines_last; [by repeat constructor..|done].
    + inversion IH as [|x Hx Hx' Hne|x ls' Hx Hx' Hls]; subst.
      * apply Lines_last; [by apply no_lf_cons|by apply no_cr_cons|done].
      * rewrite <- str_app_cons.
        apply Lines_cons; [by apply no_lf_cons|by apply no_cr_cons|done].
Qed.

Lemma file_lines_Lines doc : Lines (file_lines doc).
Proof. apply split_lines_Lines, universal_newlines_no_cr. Qed.

Lemma Lines_no_cr ls : Lines ls → no_cr (flat ls).
Proof.
  induction 1 as [|x Hx Hx' Hne|x ls Hx Hx' _ IH]; [constructor| |].
  - rewrite flat_cons. change (flat []) with "". by rewrite str_app_nil_r.
  - rewrite flat_cons, !no_cr_app. repeat split; [done| |done].
    by repeat constructor.
Qed.

Lemma Lines_file_lines ls : Lines ls → file_lines (flat ls) = ls.
Proof.
  intros Hls. unfold file_lines.
  rewrite universal_newlines_id by by apply Lines_no_cr.
  induction Hls as [|x Hx Hx' Hne|x ls Hx Hx' _ IH]; [done| |].
  - rewrite flat_cons. change (flat []) with "". rewrite str_app_nil_r.
    by apply split_lines_unterminated.
  - by rewrite flat_cons, split_lines_terminated_app, IH.
Qed.

Lemma Lines_fmap (g : string → string) ls :
  (∀ l, g l = l ∨ ∃ y, no_lf y ∧ no_cr y ∧ g l = y +:+ nl) →
  Lines ls → Lines (g <$> ls).
Proof.
  intros Hg. induction 1 as [|x Hx Hx' Hne|x ls Hx Hx' _ IH]; cbn [fmap list_fmap].
  - constructor.
  - destruct (Hg x) as [->|(y & Hy & Hy' & ->)].
    + by apply Lines_last.
    + apply Lines_cons; [done..|constructor].
  - destruct (Hg (x +:+ nl)) as [->|(y & Hy & Hy' & ->)]; by apply Lines_cons.
Qed.

Section twice.
Variables (n_articles n_authors n_tasks n_datasets n_archi : nat) (art : string).

(** The fragments of a run: five decimal numerals and the table. *)
Let fr : fragments :=
  Fragments (str_of_nat n_articles) (str_of_nat n_authors) (str_of_nat n_tasks)
            (str_of_nat n_datasets) (str_of_nat n_archi) art.

Lemma count_or_copy_line l :
  count_or_copy fr l = l ∨
  ∃ y, no_lf y ∧ no_cr y ∧ count_or_copy fr l = y +:+ nl.
Proof.
  unfold count_or_copy. cbn [nb_articles nb_authors nb_tasks nb_datasets nb_archi fr].
  repeat case_match; [right..|by left]; eexists;
    (split; [|split; [|by rewrite <- !str_app_assoc]]);
    rewrite ?no_lf_app, ?no_cr_app;
    (repeat split; [..|first [apply no_lf_str_of_nat|apply no_cr_str_of_nat]| ]);
    by repeat constructor.
Qed.

Lemma count_or_copy_fixed l :
  table_anchor l = Ok false →
  table_anchor (count_or_copy fr l) = Ok false ∧
  count_or_copy fr (count_or_copy fr l) = count_or_copy fr l.
Proof.
  intros Hl. unfold count_or_copy at 1 3 4.
  cbn [nb_articles nb_authors nb_tasks nb_datasets nb_archi fr].
  destruct (str_in "papers referenced" l) eqn:H1;
    [|destruct (str_in "unique researchers" l) eqn:H2;
      [|destruct (str_in "tasks investigated" l) eqn:H3;
        [|destruct (str_in "datasets used" l) eqn:H4;
          [|destruct (str_in "architecture used" l) eqn:H5]]]].
  all: try (split; [apply table_anchor_dash|]).
  all: try (unfold count_or_copy;
            cbn [nb_articles nb_authors nb_tasks nb_datasets nb_archi fr];
            rewrite ?str_in_count_line by done; reflexivity).
  split; [done|]. unfold count_or_copy. by rewrite H1, H2, H3, H4, H5.
Qed.

(** X17: on a README without table lines a second run with the same counts
    changes nothing: the first run succeeds and its output is rewritten to
    itself.  (This holds for the "architecture used" line as well: its
    replacement matches no anchor and is copied.) *)
Theorem rewrite_readme_twice (doc : string) :
  (∀ l, l ∈ file_lines doc → table_anchor l = Ok false) →
  ∃ out,
    rewrite_readme
      (Fragments (str_of_nat n_articles) (str_of_nat n_authors)
                 (str_of_nat n_tasks) (str_of_nat n_datasets)
                 (str_of_nat n_archi) art) doc = Ok out ∧
    rewrite_readme
      (Fragments (str_of_nat n_articles) (str_of_nat n_authors)
                 (str_of_nat n_tasks) (str_of_nat n_datasets)
                 (str_of_nat n_archi) art) out = Ok out.
Proof.
  intros Hlines. fold fr.
  assert (Hrun : ∀ ls, (∀ l, l ∈ ls → table_anchor l = Ok false) →
            rewrite_lines fr ls = Ok (flat (count_or_copy fr <$> ls))).
  { intros ls Hls. rewrite rewrite_lines_pieces.
    - rewrite pieces_no_anchor; [done|].
      apply Forall_forall. intros l Hl. by rewrite (Hls l Hl).
    - apply Forall_forall. intros l Hl%Hls ->. done. }
  exists (flat (count_or_copy fr <$> file_lines doc)).
  unfold rewrite_readme. split; [by apply Hrun|].
  rewrite Lines_file_lines
    by (apply Lines_fmap; [apply count_or_copy_line|apply file_lines_Lines]).
  rewrite Hrun.
  - do 2 f_equal. rewrite <- list_fmap_compose. apply Forall_fmap_ext, Forall_forall.
    intros l Hl. by apply count_or_copy_fixed, Hlines.
  - intros p (l & -> & Hl)%list_elem_of_fmap. by apply count_or_copy_fixed, Hlines.
Qed.
End twice.

Lemma rewrite_readme_twice_witness :
  ∃ out,
    rewrite_readme (Fragments (str_of_nat 15) (str_of_nat 40) (str_of_nat 7)
                              (str_of_nat 9) (str_of_nat 35) "")
      ("- 1 papers referenced." +:+ nl +:+ "- 30 architecture used." +:+ nl +:+
       "The end.") = Ok out ∧
    rewrite_readme (Fragments (str_of_nat 15) (str_of_nat 40) (str_of_nat 7)
                              (str_of_nat 9) (str_of_nat 35) "") out = Ok out.
Proof.
  apply (rewrite_readme_twice 15 40 7 9 35 "").
  intros l Hl. vm_compute in Hl.
  repeat (apply elem_of_cons in Hl as [->|Hl]; [reflexivity|]).
  by apply elem_of_nil in Hl.
Defined.
